(** * Manifests asset of the installer: shallow embedding and properties

    Source: pkg/asset/manifests/operators.go.

    Go strings and byte slices are both finite byte sequences; both are
    embedded as [string], so the conversions [string(b)] and [[]byte(s)] of
    the source are the identity here.  Go's [int] and [int64] are embedded
    as [Z].  A function that can panic returns an [outcome]; a function with
    a Go result [(v, error)] returns a [result]. *)

From stdpp Require Import base option list sorting gmap strings pretty.

Local Open Scope Z_scope.

(** ** Errors, results and panics *)

(** Go's [error] values are compared through their message only. *)
Definition error := string.

(** [errors.Wrap(err, msg)]: the message is prefixed to the cause. *)
Definition errors_Wrap (err : error) (message : string) : error :=
  message +:+ ": " +:+ err.

(** A Go result pair [(v, err)] with [err] either nil or not. *)
Inductive result (A : Type) : Type :=
  | Ok (v : A)
  | Err (e : error).
Arguments Ok {A} v.
Arguments Err {A} e.

(** A computation either returns normally or unwinds with a panic. *)
Inductive outcome (A : Type) : Type :=
  | Returns (v : A)
  | Panics (reason : string).
Arguments Returns {A} v.
Arguments Panics {A} reason.

Global Instance outcome_ret : MRet outcome := @Returns.
Global Instance outcome_bind : MBind outcome := λ A B f x,
  match x with
  | Returns v => f v
  | Panics r => Panics r
  end.

(** ** The slice of the Go standard library that the source calls *)

(** The newline and the path separator bytes. *)
Definition LF : Ascii.ascii :=
  Ascii.Ascii false true false true false false false false.
Definition Separator : Ascii.ascii :=
  Ascii.Ascii true true true true false true false false.

Module strings.

(** [strings.Repeat(s, count)]; it panics on a negative count. *)
Definition Repeat (s : string) (count : Z) : outcome string :=
  if decide (count < 0)
  then Panics "strings: negative Repeat count"
  else Returns (Nat.iter (Z.to_nat count) (String.app s) EmptyString).

(** [strings.HasPrefix(s, prefix)]. *)
Definition HasPrefix (s prefix : string) : bool := String.prefix prefix s.

(** Drop the first [n] bytes of [s]. *)
Fixpoint skip (n : nat) (s : string) : string :=
  match n, s with
  | O, _ => s
  | S _, EmptyString => EmptyString
  | S n', String _ s' => skip n' s'
  end.

(** The scan of [strings.Replace] for a non-empty [old]: [pending] counts
    the bytes of a match that has just been replaced and are still to be
    skipped, [budget] is the number of replacements still allowed
    ([None]: no limit). *)
Fixpoint replaceScan (old new : string) (budget : option nat)
    (pending : nat) (s : string) : string :=
  match s with
  | EmptyString => EmptyString
  | String c s' =>
      match pending with
      | S k => replaceScan old new budget k s'
      | O =>
          match budget with
          | Some O => s
          | _ =>
              if HasPrefix s old
              then new +:+ replaceScan old new (pred <$> budget)
                             (String.length old - 1)%nat s'
              else String c (replaceScan old new budget O s')
          end
      end
  end.

(** [strings.Replace(s, old, new, n)] for a non-empty [old]; a negative
    [n] puts no limit on the number of replacements.  (With an empty
    [old] Go inserts [new] around every UTF-8 sequence; the source never
    does that, and this case is left as the identity.) *)
Definition Replace (s old new : string) (n : Z) : string :=
  match old with
  | EmptyString => s
  | String _ _ =>
      replaceScan old new (if decide (n < 0) then None else Some (Z.to_nat n)) O s
  end.

(** [strings.HasSuffix(s, suffix)]. *)
Definition HasSuffix (s suffix : string) : bool :=
  bool_decide (String.length suffix ≤ String.length s)%nat
  && String.eqb (skip (String.length s - String.length suffix) s) suffix.

(** [strings.TrimSuffix(s, suffix)]. *)
Definition TrimSuffix (s suffix : string) : string :=
  if HasSuffix s suffix
  then String.substring 0 (String.length s - String.length suffix) s
  else s.

End strings.

Module filepath.

(** The components of a path: the byte strings between separators. *)
Fixpoint split (path : string) : list string :=
  match path with
  | EmptyString => [EmptyString]
  | String c rest =>
      if decide (c = Separator) then EmptyString :: split rest
      else match split rest with
           | [] => [String c EmptyString]
           | first :: others => String c first :: others
           end
  end.

(** [strings.Join(elems, "/")]. *)
Fixpoint joinSep (elems : list string) : string :=
  match elems with
  | [] => EmptyString
  | [e] => e
  | e :: rest => e +:+ String Separator (joinSep rest)
  end.

Definition nonEmpty (s : string) : bool := negb (String.eqb s EmptyString).

(** [filepath.Base(path)] on Unix: the last element of the path, after
    trailing separators are removed; "." for the empty path and "/" for a
    path of separators only. *)
Definition Base (path : string) : string :=
  if String.eqb path EmptyString then "."
  else match last (filter (λ c, nonEmpty c = true) (split path)) with
       | Some element => element
       | None => String Separator EmptyString
       end.

(** One step of the lexical scan of [filepath.Clean]: [stack] holds the
    components kept so far, innermost first. *)
Definition cleanStep (rooted : bool) (stack : list string) (c : string)
    : list string :=
  if String.eqb c EmptyString || String.eqb c "." then stack
  else if String.eqb c ".." then
    match stack with
    | [] => if rooted then [] else [c]
    | top :: below => if String.eqb top ".." then c :: stack else below
    end
  else c :: stack.

(** [filepath.Clean(path)] on Unix. *)
Definition Clean (path : string) : string :=
  match path with
  | EmptyString => "."
  | String c _ =>
      let rooted := bool_decide (c = Separator) in
      let kept := reverse (foldl (cleanStep rooted) [] (split path)) in
      let out := (if rooted then String Separator EmptyString else EmptyString)
                 +:+ joinSep kept in
      if String.eqb out EmptyString then "." else out
  end.

(** [filepath.Join(elem...)]: leading empty elements are ignored, the
    rest is joined with separators and cleaned; no element gives the
    empty path. *)
Fixpoint Join (elem : list string) : string :=
  match elem with
  | [] => EmptyString
  | e :: rest =>
      if String.eqb e EmptyString then Join rest else Clean (joinSep elem)
  end.

(** A path element: a string without a separator. *)
Fixpoint isElement (s : string) : bool :=
  match s with
  | EmptyString => true
  | String c rest => negb (bool_decide (c = Separator)) && isElement rest
  end.

End filepath.

Module fmt.

(** [fmt.Sprintf("%d", i)]: the decimal numeral of [i]. *)
Definition Sprintf_d (i : Z) : string := pretty i.

End fmt.

(** ** The Manifests helpers that need nothing else *)

(** [indent], lines 277-280. *)
Definition indent (indention : Z) (v : string) : outcome string :=
  match strings.Repeat " " indention with
  | Panics r => Panics r
  | Returns spaces =>
      let newline := String LF spaces in
      Returns (strings.Replace v (String LF EmptyString) newline (-1))
  end.

(** The [add] entry of [customTmplFuncs], lines 33-35, on Go's 64-bit
    [int]: the sum wraps around. *)
Definition wrap64 (z : Z) : Z := (z + 2 ^ 63) mod 2 ^ 64 - 2 ^ 63.
Definition add (i j : Z) : Z := wrap64 (i + j).

(** ** Files and the status record *)

(** [asset.File]. *)
Record File := { Filename : string; Data : string }.

Global Instance File_eq_dec : EqDecision File.
Proof. solve_decision. Defined.

(** Line 23. *)
Definition manifestDir : string := "manifests".

(** Line 27. *)
Definition kubeSysConfigPath : string :=
  filepath.Join [manifestDir; "cluster-config.yaml"].

(** [genericData], line 45. *)
Abbreviation genericData := (gmap string string).

(** Modelled from the spec: the status record type [configurationObject]
    and its constructor [configMap] are declared in another file of the
    package.  The spec describes the record as "a serializable snapshot
    holding a mapping of string keys to string values plus embedded
    metadata (name, kind, namespace-like grouping)". *)
Record configurationObject := {
  Kind : string;
  Name : string;
  Namespace : string;
  ConfigData : genericData;
}.

Global Instance configurationObject_eq_dec : EqDecision configurationObject.
Proof. solve_decision. Defined.

Definition configMap (namespace name : string) (data : genericData)
    : configurationObject :=
  {| Kind := "ConfigMap"; Name := name; Namespace := namespace;
     ConfigData := data |}.

(** The zero value [&configurationObject{}]. *)
Definition emptyConfigurationObject : configurationObject :=
  {| Kind := EmptyString; Name := EmptyString; Namespace := EmptyString;
     ConfigData := ∅ |}.

(** [Manifests], lines 40-43; a nil [KubeSysConfig] is [None]. *)
Record Manifests := {
  KubeSysConfig : option configurationObject;
  FileList : list File;
}.

(** Modelled from the spec: [asset.SortFiles] is declared in the asset
    package.  The spec has it sort "the combined list into a single
    deterministic total order (by path, byte-wise)"; it is embedded as an
    insertion sort on the comparison [Filename a < Filename b]. *)
Fixpoint insertFile (f : File) (sorted : list File) : list File :=
  match sorted with
  | [] => [f]
  | g :: rest =>
      if String.ltb (Filename f) (Filename g) then f :: sorted
      else g :: insertFile f rest
  end.

Definition SortFiles (files : list File) : list File :=
  foldr insertFile [] files.

(** The order the spec asks of the merged list: by path, byte-wise. *)
Definition pathLe (a b : File) : Prop := String.le (Filename a) (Filename b).

(** [asset.FileFetcher]: the interface through which [Load] reads the
    persisted files. *)
Class FileFetcher := {
  FetchByPattern : string → result (list File);
}.

(** ** The install configuration *)

(** The fields of the configuration types that this file never names are
    carried along as opaque payloads. *)
Class OpaqueFields := {
  ConfigFields : Type;
  MachinePoolFields : Type;
  PlatformFields : Type;
  VSphereFields : Type;
}.

Section InstallConfig.
Context `{OpaqueFields}.

(** Modelled from the spec: the configuration types are declared in the
    types package.  The spec lists what the base configuration exposes:
    "pull-secret string, control-plane replica count, cluster domain
    suffix, platform-specific credential fields". *)
Record VSpherePlatform := {
  Username : string;
  Password : string;
  vsphereRest : VSphereFields;
}.

(** [P] is what a non-nil [VSphere] field holds: an address in the
    program, the record itself in a serialized view. *)
Record Platform (P : Type) := {
  VSphere : option P;
  platformRest : PlatformFields;
}.

Record MachinePool := {
  Replicas : option Z;
  poolRest : MachinePoolFields;
}.

Record InstallConfig (P : Type) := {
  PullSecret : string;
  ControlPlane : option MachinePool;
  PlatformOf : Platform P;
  configRest : ConfigFields;
}.

End InstallConfig.

Arguments VSphere {_ P} _.
Arguments platformRest {_ P} _.
Arguments Build_Platform {_ P} _ _.
Arguments PullSecret {_ P} _.
Arguments ControlPlane {_ P} _.
Arguments PlatformOf {_ P} _.
Arguments configRest {_ P} _.
Arguments Build_InstallConfig {_ P} _ _ _ _.

(** Addresses of vSphere platform records, and the store that holds them. *)
Abbreviation loc := positive.
Abbreviation Heap := (gmap loc VSpherePlatform).

(** ** Dependencies *)

(** The tls assets expose raw certificate and key bytes. *)
Record CertKey := { Cert : string; Key : string }.

(** The templated bootkube assets, in the order of lines 194-211. *)
Inductive BootkubeAsset :=
  | CVOOverrides
  | EtcdServiceKubeSystem
  | HostEtcdServiceEndpointsKubeSystem
  | HostEtcdServiceKubeSystem
  | KubeCloudConfig
  | KubeSystemConfigmapEtcdCA
  | KubeSystemConfigmapEtcdServingCA
  | KubeSystemConfigmapRootCA
  | KubeSystemSecretEtcdClient
  | KubeSystemSecretEtcdClientCADeprecated
  | KubeSystemSecretEtcdSigner
  | KubeSystemSecretEtcdSignerClient
  | MachineConfigServerTLSSecret
  | OpenshiftConfigConfigmapEtcdMetricServingCA
  | OpenshiftConfigSecretEtcdMetricClient
  | OpenshiftConfigSecretPullSecret
  | OpenshiftMachineConfigOperator
  | Pull.

Definition templatedAssets : list BootkubeAsset :=
  [ CVOOverrides; EtcdServiceKubeSystem; HostEtcdServiceEndpointsKubeSystem;
    HostEtcdServiceKubeSystem; KubeCloudConfig; KubeSystemConfigmapEtcdCA;
    KubeSystemConfigmapEtcdServingCA; KubeSystemConfigmapRootCA;
    KubeSystemSecretEtcdClient; KubeSystemSecretEtcdClientCADeprecated;
    KubeSystemSecretEtcdSigner; KubeSystemSecretEtcdSignerClient;
    MachineConfigServerTLSSecret; OpenshiftConfigConfigmapEtcdMetricServingCA;
    OpenshiftConfigSecretEtcdMetricClient; OpenshiftConfigSecretPullSecret;
    OpenshiftMachineConfigOperator; Pull ].

(** The assets named in this file, by their Go type. *)
Inductive Asset :=
  | installconfig_ClusterID
  | installconfig_InstallConfig
  | Ingress
  | DNS
  | Infrastructure
  | Networking
  | tls_RootCA
  | tls_EtcdCA
  | tls_EtcdSignerCertKey
  | tls_EtcdCABundle
  | tls_EtcdSignerClientCertKey
  | tls_EtcdClientCertKey
  | tls_EtcdMetricCABundle
  | tls_EtcdMetricSignerClientCertKey
  | tls_MCSCertKey
  | bootkube (a : BootkubeAsset).

Global Instance BootkubeAsset_eq_dec : EqDecision BootkubeAsset.
Proof. solve_decision. Defined.

Global Instance Asset_eq_dec : EqDecision Asset.
Proof. solve_decision. Defined.

(** [Dependencies], lines 54-91. *)
Definition Dependencies : list Asset :=
  [ installconfig_ClusterID;
    installconfig_InstallConfig;
    Ingress;
    DNS;
    Infrastructure;
    Networking;
    tls_RootCA;
    tls_EtcdCA;
    tls_EtcdSignerCertKey;
    tls_EtcdCABundle;
    tls_EtcdSignerClientCertKey;
    tls_EtcdClientCertKey;
    tls_EtcdMetricCABundle;
    tls_EtcdMetricSignerClientCertKey;
    tls_MCSCertKey;
    bootkube CVOOverrides;
    bootkube EtcdServiceKubeSystem;
    bootkube HostEtcdServiceEndpointsKubeSystem;
    bootkube HostEtcdServiceKubeSystem;
    bootkube KubeCloudConfig;
    bootkube KubeSystemConfigmapEtcdCA;
    bootkube KubeSystemConfigmapEtcdServingCA;
    bootkube KubeSystemConfigmapRootCA;
    bootkube KubeSystemSecretEtcdClient;
    bootkube KubeSystemSecretEtcdClientCADeprecated;
    bootkube KubeSystemSecretEtcdSigner;
    bootkube KubeSystemSecretEtcdSignerClient;
    bootkube MachineConfigServerTLSSecret;
    bootkube OpenshiftConfigConfigmapEtcdMetricServingCA;
    bootkube OpenshiftConfigSecretEtcdMetricClient;
    bootkube OpenshiftConfigSecretPullSecret;
    bootkube OpenshiftMachineConfigOperator;
    bootkube Pull ].

(** [asset.Parents] as [Generate] reads it: what [dependencies.Get] copies
    into each asset named on lines 95-100, 139-162 and 213.  A nil
    [installConfig.Config] is [None]; the four fact producers and the
    templated assets are seen through their [Files()]. *)
Record Parents `{OpaqueFields} := {
  clusterID_UUID : string;
  installConfig_Config : option (InstallConfig loc);
  ingress_Files : list File;
  dns_Files : list File;
  network_Files : list File;
  infra_Files : list File;
  rootCA : CertKey;
  etcdCA : CertKey;
  etcdSignerCertKey : CertKey;
  etcdCABundle : CertKey;
  etcdSignerClientCertKey : CertKey;
  etcdClientCertKey : CertKey;
  etcdMetricCABundle : CertKey;
  etcdMetricSignerClientCertKey : CertKey;
  mcsCertKey : CertKey;
  bootkube_Files : BootkubeAsset → list File;
}.

(** The bound-value schema [bootkubeTemplateData], with the fields of the
    composite literal on lines 169-190. *)
Record bootkubeTemplateData := {
  CVOClusterID : string;
  EtcdCaBundle : string;
  EtcdCaCert : string;
  EtcdClientCaCert : string;
  EtcdClientCaKey : string;
  EtcdClientCert : string;
  EtcdClientKey : string;
  EtcdEndpointDNSSuffix : string;
  EtcdEndpointHostnames : list string;
  EtcdMetricCaCert : string;
  EtcdMetricClientCert : string;
  EtcdMetricClientKey : string;
  EtcdSignerCert : string;
  EtcdSignerClientCert : string;
  EtcdSignerClientKey : string;
  EtcdSignerKey : string;
  McsTLSCert : string;
  McsTLSKey : string;
  PullSecretBase64 : string;
  RootCaCert : string;
}.

(** [template.FuncMap] with the two entries of [customTmplFuncs]. *)
Record FuncMap := {
  fm_indent : Z → string → outcome string;
  fm_add : Z → Z → Z;
}.

(** Lines 31-36. *)
Definition customTmplFuncs : FuncMap :=
  {| fm_indent := indent; fm_add := add |}.

(** ** Library calls that are not interpreted

    The yaml codec, base64, the text/template engine and the
    [ClusterDomain] method of the configuration are taken as they come:
    any functions of these types.  The yaml encoder sees a configuration
    with its vSphere pointer followed. *)
Class Library `{OpaqueFields} := {
  Template : Type;
  yaml_Marshal_InstallConfig : InstallConfig VSpherePlatform → result string;
  yaml_Marshal_configurationObject : configurationObject → result string;
  yaml_Unmarshal : string → configurationObject → result configurationObject;
  base64_EncodeToString : string → string;
  template_Parse : FuncMap → string → result Template;
  template_Execute : Template → bootkubeTemplateData → result string;
  ClusterDomain : ConfigFields → string;
}.

(** ** The state the source mutates, and computations over it

    [Generate] and [Load] have a pointer receiver: the [Manifests] value
    they update is part of the state.  So is the store of vSphere platform
    records, which the configuration reaches through a pointer. *)
Record World `{OpaqueFields} := {
  manifests : Manifests;
  heap : Heap;
}.

Definition Go `{OpaqueFields} (A : Type) : Type := World → outcome A * World.

Section Operations.
Context `{Lib : Library}.

Definition ret {A} (v : A) : Go A := λ w, (Returns v, w).

Definition bind {A B} (c : Go A) (k : A → Go B) : Go B := λ w,
  match c w with
  | (Returns v, w') => k v w'
  | (Panics r, w') => (Panics r, w')
  end.

Definition lift {A} (o : outcome A) : Go A := λ w, (o, w).

Global Instance Go_ret : MRet Go := @ret.
Global Instance Go_bind : MBind Go := λ A B k c, bind c k.

(** [*ptr] on a vSphere platform pointer. *)
Definition load (ptr : loc) : Go VSpherePlatform := λ w,
  match heap w !! ptr with
  | Some p => (Returns p, w)
  | None => (Panics "invalid memory address or nil pointer dereference", w)
  end.

(** [&p] for a local [p] that escapes: a new cell holding its value. *)
Definition new (p : VSpherePlatform) : Go loc := λ w,
  let l := fresh (dom (heap w)) in
  (Returns l, {| manifests := manifests w; heap := <[l := p]> (heap w) |}).

Definition getFileList : Go (list File) := λ w,
  (Returns (FileList (manifests w)), w).

Definition setFileList (files : list File) : Go unit := λ w,
  (Returns (),
   {| manifests := {| KubeSysConfig := KubeSysConfig (manifests w);
                      FileList := files |};
      heap := heap w |}).

Definition setKubeSysConfig (o : option configurationObject) : Go unit := λ w,
  (Returns (),
   {| manifests := {| KubeSysConfig := o;
                      FileList := FileList (manifests w) |};
      heap := heap w |}).

(** Field assignments on local copies of the configuration structs. *)
Definition set_PullSecret {P} (v : string) (c : InstallConfig P)
    : InstallConfig P :=
  Build_InstallConfig v (ControlPlane c) (PlatformOf c) (configRest c).

Definition set_VSphere {P Q} (v : option Q) (c : InstallConfig P)
    : InstallConfig Q :=
  Build_InstallConfig (PullSecret c) (ControlPlane c)
    (Build_Platform v (platformRest (PlatformOf c))) (configRest c).

Definition set_Username (v : string) (p : VSpherePlatform) : VSpherePlatform :=
  {| Username := v; Password := Password p; vsphereRest := vsphereRest p |}.

Definition set_Password (v : string) (p : VSpherePlatform) : VSpherePlatform :=
  {| Username := Username p; Password := v; vsphereRest := vsphereRest p |}.

(** What an encoder sees of a configuration: the struct with its vSphere
    pointer followed in the store. *)
Definition follow (h : Heap) (config : InstallConfig loc)
    : option (InstallConfig VSpherePlatform) :=
  match VSphere (PlatformOf config) with
  | None => Some (set_VSphere None config)
  | Some ptr =>
      match h !! ptr with
      | Some p => Some (set_VSphere (Some p) config)
      | None => None
      end
  end.

(** [yaml.Marshal(config)]. *)
Definition yaml_Marshal (config : InstallConfig loc) : Go (result string) := λ w,
  match follow (heap w) config with
  | Some v => (Returns (yaml_Marshal_InstallConfig v), w)
  | None => (Panics "invalid memory address or nil pointer dereference", w)
  end.

(** [redactedInstallConfig], lines 266-275.  [config] is passed by value:
    the assignments are to the callee's copy. *)
Definition redactedInstallConfig (config : InstallConfig loc)
    : Go (result string) :=
  let config := set_PullSecret EmptyString config in
  config ← match VSphere (PlatformOf config) with
            | Some ptr =>
                p ← load ptr;
                let p := set_Username EmptyString p in
                let p := set_Password EmptyString p in
                ptr' ← new p;
                ret (set_VSphere (Some ptr') config)
            | None => ret config
            end;
  yaml_Marshal config.

(** [applyTemplateData], lines 224-231: [template.Must] panics on a
    parse error, and an execution error is turned into a panic. *)
Definition applyTemplateData (data : string) (templateData : bootkubeTemplateData)
    : outcome string :=
  match template_Parse customTmplFuncs data with
  | Err err => Panics err
  | Ok template =>
      match template_Execute template templateData with
      | Err err => Panics err
      | Ok buf => Returns buf
      end
  end.

(** Lines 164-167.  [make] panics on a negative length (the limit the
    runtime puts on the size of an allocation is not modelled); the loop
    then assigns every index. *)
Definition makeEtcdEndpointHostnames (replicas : Z) : outcome (list string) :=
  if decide (replicas < 0) then Panics "makeslice: len out of range"
  else
    let n := Z.to_nat replicas in
    Returns (foldl (λ hostnames i,
                      <[i := "etcd-" +:+ fmt.Sprintf_d (Z.of_nat i)]> hostnames)
                   (replicate n EmptyString) (seq 0 n)).

(** [*installConfig.Config.ControlPlane.Replicas], line 164. *)
Definition controlPlaneReplicas (dependencies : Parents) : outcome Z :=
  match installConfig_Config dependencies with
  | None => Panics "invalid memory address or nil pointer dereference"
  | Some config =>
      match ControlPlane config with
      | None => Panics "invalid memory address or nil pointer dereference"
      | Some pool =>
          match Replicas pool with
          | None => Panics "invalid memory address or nil pointer dereference"
          | Some n => Returns n
          end
      end
  end.

(** Lines 164-190: the bound-value schema. *)
Definition bootkubeData (dependencies : Parents) : outcome bootkubeTemplateData :=
  replicas ← controlPlaneReplicas dependencies;
  etcdEndpointHostnames ← makeEtcdEndpointHostnames replicas;
  match installConfig_Config dependencies with
  | None => Panics "invalid memory address or nil pointer dereference"
  | Some config =>
    Returns
    {| CVOClusterID := clusterID_UUID dependencies;
       EtcdCaBundle := base64_EncodeToString (Cert (etcdCABundle dependencies));
       EtcdCaCert := Cert (etcdCA dependencies);
       EtcdClientCaCert := base64_EncodeToString (Cert (etcdCA dependencies));
       EtcdClientCaKey := base64_EncodeToString (Key (etcdCA dependencies));
       EtcdClientCert := base64_EncodeToString (Cert (etcdClientCertKey dependencies));
       EtcdClientKey := base64_EncodeToString (Key (etcdClientCertKey dependencies));
       EtcdEndpointDNSSuffix := ClusterDomain (configRest config);
       EtcdEndpointHostnames := etcdEndpointHostnames;
       EtcdMetricCaCert := Cert (etcdMetricCABundle dependencies);
       EtcdMetricClientCert :=
         base64_EncodeToString (Cert (etcdMetricSignerClientCertKey dependencies));
       EtcdMetricClientKey :=
         base64_EncodeToString (Key (etcdMetricSignerClientCertKey dependencies));
       EtcdSignerCert := base64_EncodeToString (Cert (etcdSignerCertKey dependencies));
       EtcdSignerClientCert :=
         base64_EncodeToString (Cert (etcdSignerClientCertKey dependencies));
       EtcdSignerClientKey :=
         base64_EncodeToString (Key (etcdSignerClientCertKey dependencies));
       EtcdSignerKey := base64_EncodeToString (Key (etcdSignerCertKey dependencies));
       McsTLSCert := base64_EncodeToString (Cert (mcsCertKey dependencies));
       McsTLSKey := base64_EncodeToString (Key (mcsCertKey dependencies));
       PullSecretBase64 := base64_EncodeToString (PullSecret config);
       RootCaCert := Cert (rootCA dependencies) |}
  end.

(** Line 216: where the rendering of a dependency file goes. *)
Definition manifestPath (source : string) : string :=
  filepath.Join [manifestDir;
                 strings.TrimSuffix (filepath.Base source) ".template"].

(** The inner loop, lines 214-219: one output file per dependency file,
    appended to [files]; the first template that fails unwinds. *)
Fixpoint renderFiles (templateData : bootkubeTemplateData)
    (sources files : list File) : outcome (list File) :=
  match sources with
  | [] => Returns files
  | f :: rest =>
      data ← applyTemplateData (Data f) templateData;
      renderFiles templateData rest
        (files ++ [{| Filename := manifestPath (Filename f); Data := data |}])
  end.

(** The outer loop, lines 193-220. *)
Fixpoint renderAssets (dependencies : Parents) (templateData : bootkubeTemplateData)
    (assets : list BootkubeAsset) (files : list File) : outcome (list File) :=
  match assets with
  | [] => Returns files
  | a :: rest =>
      files ← renderFiles templateData (bootkube_Files dependencies a) files;
      renderAssets dependencies templateData rest files
  end.

(** [generateBootKubeManifests], lines 138-222. *)
Definition generateBootKubeManifests (dependencies : Parents)
    : outcome (list File) :=
  templateData ← bootkubeData dependencies;
  renderAssets dependencies templateData templatedAssets [].

(** [Generate], lines 94-131; the Go result is [nil] or an error. *)
Definition Generate (dependencies : Parents) : Go (option error) :=
  config ← lift (match installConfig_Config dependencies with
                  | Some config => Returns config
                  | None => Panics "invalid memory address or nil pointer dereference"
                  end);
  redacted ← redactedInstallConfig config;
  match redacted with
  | Err err => ret (Some (errors_Wrap err "failed to redact install-config"))
  | Ok redactedConfig =>
      let kubeSysConfig :=
        configMap "kube-system" "cluster-config-v1"
                  {[ "install-config" := redactedConfig ]} in
      setKubeSysConfig (Some kubeSysConfig);;
      match yaml_Marshal_configurationObject kubeSysConfig with
      | Err err =>
          ret (Some (errors_Wrap err
            "failed to create kube-system/cluster-config-v1 configmap"))
      | Ok kubeSysConfigData =>
          setFileList [ {| Filename := kubeSysConfigPath;
                           Data := kubeSysConfigData |} ];;
          fileList ← getFileList;
          bootkubeFiles ← lift (generateBootKubeManifests dependencies);
          setFileList (fileList ++ bootkubeFiles);;
          fileList ← getFileList;
          setFileList (fileList ++ ingress_Files dependencies);;
          fileList ← getFileList;
          setFileList (fileList ++ dns_Files dependencies);;
          fileList ← getFileList;
          setFileList (fileList ++ network_Files dependencies);;
          fileList ← getFileList;
          setFileList (fileList ++ infra_Files dependencies);;
          fileList ← getFileList;
          setFileList (SortFiles fileList);;
          ret None
      end
  end.

(** [Files], lines 134-136. *)
Definition Files (m : Manifests) : list File := FileList m.

(** The loop of [Load], lines 245-252: every file at the status record
    path is decoded into the same object. *)
Fixpoint loadLoop (fileList : list File) (kubeSysConfig : configurationObject)
    (found : bool) : result (configurationObject * bool) :=
  match fileList with
  | [] => Ok (kubeSysConfig, found)
  | file :: rest =>
      if decide (Filename file = kubeSysConfigPath) then
        match yaml_Unmarshal (Data file) kubeSysConfig with
        | Err err => Err (errors_Wrap err "failed to unmarshal cluster-config.yaml")
        | Ok kubeSysConfig => loadLoop rest kubeSysConfig true
        end
      else loadLoop rest kubeSysConfig found
  end.

(** [Load], lines 234-264; the Go result is the pair [(found, err)]. *)
Definition Load (f : FileFetcher) : Go (bool * option error) :=
  match @FetchByPattern f (filepath.Join [manifestDir; "*"]) with
  | Err err => ret (false, Some err)
  | Ok fileList =>
      if decide (length fileList = 0%nat) then ret (false, None)
      else
        match loadLoop fileList emptyConfigurationObject false with
        | Err err => ret (false, Some err)
        | Ok (kubeSysConfig, found) =>
            if negb found then ret (false, None)
            else
              setFileList fileList;;
              setKubeSysConfig (Some kubeSysConfig);;
              fileList ← getFileList;
              setFileList (SortFiles fileList);;
              ret (true, None)
        end
  end.

(** ** Views used to state the properties *)

(** The redacted copy of a vSphere platform record. *)
Definition cleared (p : VSpherePlatform) : VSpherePlatform :=
  set_Password EmptyString (set_Username EmptyString p).

(** The status record built from a redacted configuration. *)
Definition statusRecord (redactedConfig : string) : configurationObject :=
  configMap "kube-system" "cluster-config-v1"
            {[ "install-config" := redactedConfig ]}.

(** The files of [Generate] in the order they are collected. *)
Definition collected (dependencies : Parents) (kubeSysConfigData : string)
    (bootkubeFiles : list File) : list File :=
  (((([ {| Filename := kubeSysConfigPath; Data := kubeSysConfigData |} ]
      ++ bootkubeFiles) ++ ingress_Files dependencies)
    ++ dns_Files dependencies) ++ network_Files dependencies)
  ++ infra_Files dependencies.

Definition withManifests (w : World) (m : Manifests) : World :=
  {| manifests := m; heap := heap w |}.

(** [out] is the rendering of the dependency file [source]. *)
Definition rendering (templateData : bootkubeTemplateData) (source out : File) : Prop :=
  Filename out = manifestPath (Filename source)
  ∧ applyTemplateData (Data source) templateData = Returns (Data out).

(** The pattern [Load] hands to the fetcher, line 235. *)
Definition manifestPattern : string := filepath.Join [manifestDir; "*"].

(** Some file at the status record path does not decode: going through
    [fileList] in order, the files before it are decoded and it is not. *)
Definition undecodable (fileList : list File) : Prop :=
  ∃ before file after kubeSysConfig found err,
    fileList = before ++ file :: after
    ∧ Filename file = kubeSysConfigPath
    ∧ loadLoop before emptyConfigurationObject false = Ok (kubeSysConfig, found)
    ∧ yaml_Unmarshal (Data file) kubeSysConfig = Err err.

Definition set_installConfig_Config (c : option (InstallConfig loc)) (d : Parents)
    : Parents :=
  {| clusterID_UUID := clusterID_UUID d;
     installConfig_Config := c;
     ingress_Files := ingress_Files d;
     dns_Files := dns_Files d;
     network_Files := network_Files d;
     infra_Files := infra_Files d;
     rootCA := rootCA d;
     etcdCA := etcdCA d;
     etcdSignerCertKey := etcdSignerCertKey d;
     etcdCABundle := etcdCABundle d;
     etcdSignerClientCertKey := etcdSignerClientCertKey d;
     etcdClientCertKey := etcdClientCertKey d;
     etcdMetricCABundle := etcdMetricCABundle d;
     etcdMetricSignerClientCertKey := etcdMetricSignerClientCertKey d;
     mcsCertKey := mcsCertKey d;
     bootkube_Files := bootkube_Files d |}.

(** The same dependencies and store with other secrets: [pullSecret] in
    the configuration, [username] and [password] in the vSphere record
    the configuration points to (when it points to one). *)
Definition otherSecretsParents (pullSecret : string) (d : Parents) : Parents :=
  set_installConfig_Config (set_PullSecret pullSecret <$> installConfig_Config d) d.

Definition otherCredentials (username password : string) (p : VSpherePlatform)
    : VSpherePlatform :=
  set_Password password (set_Username username p).

Definition otherSecretsWorld (username password : string) (d : Parents) (w : World)
    : World :=
  match installConfig_Config d with
  | Some config =>
      match VSphere (PlatformOf config) with
      | Some ptr =>
          {| manifests := manifests w;
             heap := alter (otherCredentials username password) ptr (heap w) |}
      | None => w
      end
  | None => w
  end.

End Operations.

(** ** A concrete library and a concrete run

    A small instance of the uninterpreted calls, on which the functions
    above evaluate: a line-based encoder in place of yaml, a tag in place
    of base64, and a template engine that knows one placeholder, rejects
    the unclosed action ["{{"] when parsing and the unknown field
    ["{{.Missing}}"] when executing. *)
Module Sample.

#[local] Instance fields : OpaqueFields :=
  {| ConfigFields := string; MachinePoolFields := unit;
     PlatformFields := unit; VSphereFields := string |}.

Definition encodeVSphere (p : @VSpherePlatform fields) : string :=
  "vcenter: " +:+ vsphereRest p +:+ " username: " +:+ Username p
  +:+ " password: " +:+ Password p.

Definition encodeConfig (c : @InstallConfig fields (@VSpherePlatform fields))
    : result string :=
  if String.eqb (configRest c) EmptyString then Err "yaml: no cluster domain"
  else Ok ("pullSecret: " +:+ PullSecret c +:+ " domain: " +:+ configRest c
           +:+ match VSphere (PlatformOf c) with
               | Some p => " " +:+ encodeVSphere p
               | None => EmptyString
               end).

Definition statusRecordOf (text : string) : configurationObject :=
  configMap "kube-system" "cluster-config-v1" {[ "install-config" := text ]}.

Definition encodeObject (o : configurationObject) : result string :=
  match ConfigData o !! "install-config" with
  | Some text =>
      if decide (o = statusRecordOf text) then Ok ("install-config: " +:+ text)
      else Err "yaml: unsupported object"
  | None => Err "yaml: unsupported object"
  end.

Definition decodeObject (data : string) (into : configurationObject)
    : result configurationObject :=
  if String.prefix "install-config: " data
  then Ok (statusRecordOf (strings.skip 16 data))
  else Err "yaml: cannot unmarshal".

Definition parse (funcs : FuncMap) (body : string) : result string :=
  if String.eqb body "{{" then Err "template: unclosed action" else Ok body.

Definition execute (body : string) (data : bootkubeTemplateData) : result string :=
  if String.eqb body "{{.Missing}}" then Err "template: can't evaluate field Missing"
  else Ok (strings.Replace body "{{.CVOClusterID}}" (CVOClusterID data) (-1)).

#[local] Instance library : @Library fields :=
  {| Template := string;
     yaml_Marshal_InstallConfig := encodeConfig;
     yaml_Marshal_configurationObject := encodeObject;
     yaml_Unmarshal := decodeObject;
     base64_EncodeToString := λ s, "b64:" +:+ s;
     template_Parse := parse;
     template_Execute := execute;
     ClusterDomain := λ domain : @ConfigFields fields, domain |}.

Definition noCert : CertKey := {| Cert := EmptyString; Key := EmptyString |}.

Definition pool : @MachinePool fields := {| Replicas := Some 3; poolRest := () |}.

Definition config (domain : string) : @InstallConfig fields loc :=
  {| PullSecret := "hunter2";
     ControlPlane := Some pool;
     PlatformOf := {| VSphere := Some 1%positive; platformRest := () |};
     configRest := domain |}.

(** Dependencies with one templated file, whose body is [template]. *)
Definition parents (domain template : string) : @Parents fields :=
  {| clusterID_UUID := "c1u5-7e4";
     installConfig_Config := Some (config domain);
     ingress_Files := [ {| Filename := "manifests/cluster-ingress-02-config.yml";
                           Data := "ingress" |} ];
     dns_Files := [ {| Filename := "manifests/cluster-dns-02-config.yml";
                       Data := "dns" |} ];
     network_Files := [ {| Filename := "manifests/cluster-network-02-config.yml";
                           Data := "network" |} ];
     infra_Files := [ {| Filename := "manifests/cluster-infrastructure-02-config.yml";
                         Data := "infra" |} ];
     rootCA := noCert; etcdCA := noCert; etcdSignerCertKey := noCert;
     etcdCABundle := noCert; etcdSignerClientCertKey := noCert;
     etcdClientCertKey := noCert; etcdMetricCABundle := noCert;
     etcdMetricSignerClientCertKey := noCert; mcsCertKey := noCert;
     bootkube_Files := λ a,
       match a with
       | CVOOverrides =>
           [ {| Filename := "bootkube/manifests/cvo-overrides.yaml.template";
                Data := template |} ]
       | _ => []
       end |}.

Definition vsphere : @VSpherePlatform fields :=
  {| Username := "administrator"; Password := "s3cret";
     vsphereRest := "vcenter.example.com" |}.

Definition world : @World fields :=
  {| manifests := {| KubeSysConfig := None; FileList := [] |};
     heap := {[ 1%positive := vsphere ]} |}.

Definition goodParents : @Parents fields :=
  parents "test.example.com" "clusterID: {{.CVOClusterID}}".


(** A fetcher over a fixed list of persisted files. *)
Definition fetcher (persisted : list File) : FileFetcher :=
  {| FetchByPattern := λ _, Ok persisted |}.

End Sample.

(** ** The indent helper as the spec words it

    "Replaces each newline in v with a newline followed by N spaces." *)
Definition SP : Ascii.ascii :=
  Ascii.Ascii false false false false false true false false.

Definition spaces (n : nat) : string := Nat.iter n (String SP) EmptyString.

Fixpoint indentSpec (n : nat) (v : string) : string :=
  match v with
  | EmptyString => EmptyString
  | String c rest =>
      if decide (c = LF) then String LF (spaces n +:+ indentSpec n rest)
      else String c (indentSpec n rest)
  end.

(** A line: a string without a newline. *)
Fixpoint isLine (v : string) : bool :=
  match v with
  | EmptyString => true
  | String c rest => negb (bool_decide (c = LF)) && isLine rest
  end.

(** The number of newlines of a text. *)
Fixpoint countNewlines (v : string) : nat :=
  match v with
  | EmptyString => O
  | String c rest => (if decide (c = LF) then 1 else 0) + countNewlines rest
  end.

(** The range of Go's 64-bit [int]. *)
Definition inInt64 (z : Z) : Prop := - 2 ^ 63 ≤ z < 2 ^ 63.

(** * Properties *)

(** ** Strings *)

Lemma append_String (c : Ascii.ascii) (s t : string) :
  String c s +:+ t = String c (s +:+ t).
Proof. reflexivity. Qed.

Lemma append_empty_r (s : string) : s +:+ EmptyString = s.
Proof. induction s as [|c s IH]; [done|]. by rewrite append_String, IH. Qed.


Lemma skip_append (s t : string) : strings.skip (String.length s) (s +:+ t) = t.
Proof. induction s as [|c s IH]; [done|]. by rewrite append_String. Qed.

Lemma Repeat_space (n : Z) :
  0 ≤ n → strings.Repeat " " n = Returns (spaces (Z.to_nat n)).
Proof.
  intros Hn. unfold strings.Repeat. case_decide; [lia|]. reflexivity.
Qed.

Lemma HasPrefix_single (c d : Ascii.ascii) (s : string) :
  strings.HasPrefix (String c s) (String d EmptyString) = bool_decide (c = d).
Proof.
  unfold strings.HasPrefix. cbn [String.prefix].
  destruct (Ascii.ascii_dec d c) as [->|Hne].
  - rewrite bool_decide_eq_true_2 by done. by destruct s.
  - by rewrite bool_decide_eq_false_2 by congruence.
Qed.

Lemma replaceScan_newline (n : nat) (v : string) :
  strings.replaceScan (String LF EmptyString) (String LF (spaces n)) None 0 v
  = indentSpec n v.
Proof.
  induction v as [|c rest IH]; [done|].
  cbn [strings.replaceScan indentSpec]. rewrite HasPrefix_single.
  cbn [String.length Nat.sub fmap option_fmap option_map]. rewrite IH.
  destruct (decide (c = LF));
    [rewrite bool_decide_eq_true_2 by done
    |rewrite bool_decide_eq_false_2 by done]; reflexivity.
Qed.

Lemma indent_indentSpec (n : Z) (v : string) :
  0 ≤ n → indent n v = Returns (indentSpec (Z.to_nat n) v).
Proof.
  intros Hn. unfold indent. rewrite Repeat_space by done.
  unfold strings.Replace. by rewrite replaceScan_newline.
Qed.

Lemma indentSpec_app_line (n : nat) (line rest : string) :
  isLine line = true →
  indentSpec n (line +:+ rest) = line +:+ indentSpec n rest.
Proof.
  induction line as [|c line IH]; [done|].
  cbn [isLine]. intros [Hc Hl]%andb_true_iff.
  apply negb_true_iff, bool_decide_eq_false in Hc.
  rewrite !append_String. cbn [indentSpec].
  rewrite decide_False by done. by rewrite IH.
Qed.

(** C8: for every width N >= 0 and every string v, indent replaces each
    newline of v with a newline followed by N spaces: it computes the
    spec's function [indentSpec]; the first line is left as it is and the
    line after each newline is shifted by N columns; and
    indent(2, "a\nb") = "a\n  b". *)
Theorem indent_replaces_newlines (n : Z) (v : string) :
  0 ≤ n →
  indent n v = Returns (indentSpec (Z.to_nat n) v)
  ∧ (∀ first rest : string, isLine first = true →
       v = first +:+ String LF rest →
       ∃ shifted, indent n rest = Returns shifted
         ∧ indent n v
           = Returns (first +:+ String LF (spaces (Z.to_nat n) +:+ shifted)))
  ∧ (isLine v = true → indent n v = Returns v)
  ∧ indent 2 ("a" +:+ String LF "b") = Returns ("a" +:+ String LF "  b").
Proof.
  intros Hn. split; [by apply indent_indentSpec|]. split; [|split].
  - intros first rest Hline ->. exists (indentSpec (Z.to_nat n) rest).
    rewrite !indent_indentSpec by done. split; [done|]. f_equal.
    by rewrite indentSpec_app_line.
  - intros Hline. rewrite indent_indentSpec by done. f_equal.
    rewrite <- (append_empty_r v) at 1. rewrite indentSpec_app_line by done.
    apply append_empty_r.
  - reflexivity.
Qed.

(** ** Paths *)

Lemma split_nonempty (path : string) : filepath.split path ≠ [].
Proof.
  destruct path as [|c rest]; [done|]. cbn [filepath.split].
  case_decide; [done|]. by destruct (filepath.split rest).
Qed.

Lemma split_elements (path : string) :
  Forall (λ c, filepath.isElement c = true) (filepath.split path).
Proof.
  induction path as [|c rest IH]; cbn [filepath.split]; [by repeat constructor|].
  case_decide as Hc; [by constructor|].
  pose proof (split_nonempty rest) as Hne.
  destruct (filepath.split rest) as [|first others]; [done|].
  apply Forall_cons in IH as [Hfirst Hothers]. constructor; [|done].
  cbn [filepath.isElement]. by rewrite bool_decide_eq_false_2, Hfirst.
Qed.

Lemma split_element (s : string) :
  filepath.isElement s = true → filepath.split s = [s].
Proof.
  induction s as [|c rest IH]; [done|]. cbn [filepath.isElement filepath.split].
  intros [Hc Hrest]%andb_true_iff. apply negb_true_iff, bool_decide_eq_false in Hc.
  rewrite decide_False by done. by rewrite IH.
Qed.

Lemma split_app_element (s t : string) :
  filepath.isElement s = true →
  filepath.split (s +:+ String Separator t) = s :: filepath.split t.
Proof.
  induction s as [|c rest IH].
  - intros _. change (EmptyString +:+ String Separator t) with (String Separator t).
    cbn [filepath.split]. by rewrite decide_True.
  - cbn [filepath.isElement]. intros [Hc Hrest]%andb_true_iff.
    apply negb_true_iff, bool_decide_eq_false in Hc.
    rewrite append_String. cbn [filepath.split].
    rewrite decide_False by done. by rewrite IH.
Qed.

Lemma Base_element (path : string) :
  filepath.Base path = String Separator EmptyString
  ∨ filepath.isElement (filepath.Base path) = true.
Proof.
  unfold filepath.Base. destruct (String.eqb path EmptyString); [by right|].
  destruct (last _) as [element|] eqn:Hlast; [right|by left].
  apply last_Some_elem_of, list_elem_of_filter in Hlast as [_ Hin].
  pose proof (split_elements path) as Hall.
  by eapply Forall_forall in Hall.
Qed.

Lemma substring_element (n : nat) (s : string) :
  filepath.isElement s = true → filepath.isElement (String.substring 0 n s) = true.
Proof.
  revert n. induction s as [|c rest IH]; intros [|n]; try done.
  cbn [filepath.isElement String.substring].
  intros [Hc Hrest]%andb_true_iff. by rewrite Hc, IH.
Qed.

Lemma TrimSuffix_element (s suffix : string) :
  filepath.isElement s = true →
  filepath.isElement (strings.TrimSuffix s suffix) = true.
Proof.
  intros Hs. unfold strings.TrimSuffix.
  destruct (strings.HasSuffix s suffix); [by apply substring_element|done].
Qed.

Example kubeSysConfigPath_value :
  kubeSysConfigPath = "manifests/cluster-config.yaml".
Proof. reflexivity. Qed.

Example Base_of_template :
  filepath.Base "bootkube/manifests/pull.json.template" = "pull.json.template".
Proof. reflexivity. Qed.

Example Clean_lexical : filepath.Clean "a//b/./c/../d/" = "a/b/d".
Proof. reflexivity. Qed.

(** Names that are not ordinary file names are cleaned away by [Join]. *)
Example Join_cleans_degenerate_names :
  filepath.Join [manifestDir; strings.TrimSuffix (filepath.Base ".template") ".template"]
  = "manifests"
  ∧ filepath.Join [manifestDir; filepath.Base "a/.."] = ".".
Proof. split; reflexivity. Qed.

(** Joining the manifest directory and an ordinary file name puts the
    name directly under the directory. *)
Lemma Join_manifestDir (name : string) :
  filepath.isElement name = true →
  name ≠ EmptyString → name ≠ "." → name ≠ ".." →
  filepath.Join [manifestDir; name] = manifestDir +:+ String Separator name.
Proof.
  intros Helement Hempty Hdot Hdotdot.
  change (filepath.Join [manifestDir; name])
    with (filepath.Clean (manifestDir +:+ String Separator name)).
  unfold filepath.Clean.
  destruct (manifestDir +:+ String Separator name) as [|c rest] eqn:Hpath;
    [done|].
  assert (c ≠ Separator) as Hc.
  { unfold manifestDir in Hpath. rewrite append_String in Hpath.
    injection Hpath as <- _. done. }
  rewrite bool_decide_eq_false_2 by done. rewrite <- Hpath.
  rewrite split_app_element by done. rewrite split_element by done.
  cbn [foldl]. change (filepath.cleanStep false [] manifestDir) with [manifestDir].
  unfold filepath.cleanStep.
  apply String.eqb_neq in Hempty, Hdot, Hdotdot.
  rewrite Hempty, Hdot, Hdotdot. cbn [orb].
  change (reverse [name; manifestDir]) with [manifestDir; name].
  cbn [filepath.joinSep]. done.
Qed.

(** ** Sorting the merged list *)

Lemma ltb_true_le (a b : string) : String.ltb a b = true → String.le a b.
Proof.
  unfold String.ltb, String.le, String.leb.
  by destruct (String.compare a b).
Qed.

Lemma ltb_false_le (a b : string) : String.ltb a b = false → String.le b a.
Proof.
  unfold String.ltb, String.le, String.leb. rewrite (String.compare_antisym a b).
  by destruct (String.compare b a).
Qed.

Global Instance pathLe_trans : Transitive pathLe.
Proof. intros a b c. unfold pathLe. apply transitivity. Qed.

Lemma insertFile_Permutation (f : File) (l : list File) : insertFile f l ≡ₚ f :: l.
Proof.
  induction l as [|g rest IH]; [done|]. cbn [insertFile].
  destruct (String.ltb _ _); [done|]. rewrite IH. apply Permutation_swap.
Qed.

Lemma SortFiles_Permutation (l : list File) : SortFiles l ≡ₚ l.
Proof.
  induction l as [|f rest IH]; [done|]. cbn [SortFiles foldr].
  rewrite insertFile_Permutation. by f_equiv.
Qed.

Lemma insertFile_sorted (f : File) (l : list File) :
  StronglySorted pathLe l → StronglySorted pathLe (insertFile f l).
Proof.
  induction 1 as [|g rest Hrest IH Hg]; cbn [insertFile].
  - repeat constructor.
  - destruct (String.ltb (Filename f) (Filename g)) eqn:Hlt.
    + apply ltb_true_le in Hlt. constructor; [by constructor|].
      constructor; [done|]. eapply Forall_impl; [exact Hg|].
      intros h Hh. by etrans.
    + apply ltb_false_le in Hlt. constructor; [done|].
      rewrite insertFile_Permutation. by constructor.
Qed.

Lemma SortFiles_sorted (l : list File) : StronglySorted pathLe (SortFiles l).
Proof.
  induction l as [|f rest IH]; [constructor|]. by apply insertFile_sorted.
Qed.

Lemma SortFiles_paths_sorted (l : list File) :
  StronglySorted String.le (Filename <$> SortFiles l).
Proof. eapply StronglySorted_fmap; [|apply SortFiles_sorted]. done. Qed.

(** The sequence of paths of the sorted list depends on the collected
    files as a multiset only. *)
Lemma SortFiles_paths_Permutation (l l' : list File) :
  l' ≡ₚ l → Filename <$> SortFiles l' = Filename <$> SortFiles l.
Proof.
  intros Hperm. apply (StronglySorted_unique String.le);
    [apply SortFiles_paths_sorted..|].
  by rewrite !SortFiles_Permutation, Hperm.
Qed.

Lemma NoDup_paths_eq (l : list File) (a b : File) :
  NoDup (Filename <$> l) → a ∈ l → b ∈ l → Filename a = Filename b → a = b.
Proof.
  induction l as [|f rest IH]; [by intros _ ?%elem_of_nil|].
  rewrite fmap_cons, NoDup_cons. intros [Hf Hrest] Ha Hb Heq.
  apply elem_of_cons in Ha as [->|Ha], Hb as [->|Hb]; [done| | |by apply IH].
  - destruct Hf. rewrite Heq. by apply list_elem_of_fmap_2.
  - destruct Hf. rewrite <- Heq. by apply list_elem_of_fmap_2.
Qed.

(** With unique paths the sorted list itself depends on the collected
    files as a set only. *)
Lemma SortFiles_Permutation_eq (l l' : list File) :
  NoDup (Filename <$> l) → l' ≡ₚ l → SortFiles l' = SortFiles l.
Proof.
  intros Hnodup Hperm.
  apply (StronglySorted_unique_strong pathLe); [|apply SortFiles_sorted..|].
  - intros a b Ha Hb Hab Hba.
    apply (NoDup_paths_eq l); [done| | |].
    + by rewrite SortFiles_Permutation, Hperm in Ha.
    + by rewrite SortFiles_Permutation in Hb.
    + by apply (anti_symm String.le).
  - by rewrite !SortFiles_Permutation.
Qed.


(** ** The redactor *)

Section Properties.
Context `{Lib : Library}.

(** [redactedInstallConfig] case by case. *)
Lemma redactedInstallConfig_cases (config : InstallConfig loc) (w : World) :
  match VSphere (PlatformOf config) with
  | None =>
      redactedInstallConfig config w
      = (Returns (yaml_Marshal_InstallConfig
                    (set_VSphere None (set_PullSecret EmptyString config))), w)
  | Some ptr =>
      match heap w !! ptr with
      | None =>
          redactedInstallConfig config w
          = (Panics "invalid memory address or nil pointer dereference", w)
      | Some p =>
          redactedInstallConfig config w
          = (Returns (yaml_Marshal_InstallConfig
                        (set_VSphere (Some (cleared p))
                                     (set_PullSecret EmptyString config))),
             {| manifests := manifests w;
                heap := <[fresh (dom (heap w)) := cleared p]> (heap w) |})
      end
  end.
Proof.
  unfold redactedInstallConfig, mbind, Go_bind, bind, mret, Go_ret, ret.
  cbn [PlatformOf VSphere set_PullSecret].
  destruct (VSphere (PlatformOf config)) as [ptr|] eqn:Hptr.
  - unfold load. destruct (heap w !! ptr) as [p|] eqn:Hp; [|done].
    unfold new, yaml_Marshal, follow. cbn.
    by rewrite lookup_insert_eq.
  - unfold yaml_Marshal, follow. cbn. by rewrite Hptr.
Qed.

Lemma fresh_cell (h : Heap) : h !! fresh (dom h) = None.
Proof. apply not_elem_of_dom, is_fresh. Qed.

Lemma follow_insert_fresh (h : Heap) (p : VSpherePlatform) (config : InstallConfig loc) :
  follow (<[fresh (dom h) := p]> h) config = follow h config
  ∨ follow h config = None.
Proof.
  unfold follow. destruct (VSphere (PlatformOf config)) as [ptr|]; [|by left].
  destruct (h !! ptr) as [q|] eqn:Hq; [|by right]. left.
  rewrite lookup_insert_ne; [by rewrite Hq|].
  intros <-. by rewrite fresh_cell in Hq.
Qed.

Lemma redactedInstallConfig_frame
    (config : InstallConfig loc) (w w' : World) (r : outcome (result string)) :
  redactedInstallConfig config w = (r, w') →
  manifests w' = manifests w
  ∧ follow (heap w') config = follow (heap w) config.
Proof.
  intros Hrun. pose proof (redactedInstallConfig_cases config w) as Hcases.
  destruct (VSphere (PlatformOf config)) as [ptr|] eqn:Hptr.
  - destruct (heap w !! ptr) as [p|] eqn:Hp.
    + rewrite Hcases in Hrun. injection Hrun as <- <-. cbn [manifests heap].
      split; [done|].
      destruct (follow_insert_fresh (heap w) (cleared p) config) as [->|Hnone];
        [done|].
      unfold follow in Hnone. by rewrite Hptr, Hp in Hnone.
    + rewrite Hcases in Hrun. by injection Hrun as <- <-.
  - rewrite Hcases in Hrun. by injection Hrun as <- <-.
Qed.

(** C9: the redactor works on a copy.  Whatever [redactedInstallConfig]
    returns for a configuration, the caller's [Manifests] and every cell
    of the store are as before, so the caller's configuration, with the
    vSphere record it points to, reads as before; when a vSphere record
    is set, its cleared copy goes to a new cell and that copy is what is
    serialized. *)
Theorem redactedInstallConfig_leaves_caller_config
    (config : InstallConfig loc) (w w' : World) (r : outcome (result string)) :
  redactedInstallConfig config w = (r, w') →
  manifests w' = manifests w
  ∧ heap w ⊆ heap w'
  ∧ follow (heap w') config = follow (heap w) config
  ∧ (∀ ptr p, VSphere (PlatformOf config) = Some ptr → heap w !! ptr = Some p →
       heap w' !! ptr = Some p
       ∧ ∃ ptr', ptr' ≠ ptr ∧ heap w !! ptr' = None
           ∧ heap w' = <[ptr' := cleared p]> (heap w)
           ∧ r = Returns (yaml_Marshal_InstallConfig
                            (set_VSphere (Some (cleared p))
                                         (set_PullSecret EmptyString config)))).
Proof.
  intros Hrun. pose proof (redactedInstallConfig_cases config w) as Hcases.
  destruct (VSphere (PlatformOf config)) as [ptr|] eqn:Hptr.
  - destruct (heap w !! ptr) as [p|] eqn:Hp.
    + rewrite Hcases in Hrun. injection Hrun as <- <-. cbn [manifests heap].
      split; [done|]. split; [apply insert_subseteq, fresh_cell|].
      split.
      { destruct (follow_insert_fresh (heap w) (cleared p) config) as [->|Hnone];
          [done|].
        unfold follow in Hnone. by rewrite Hptr, Hp in Hnone. }
      intros ptr0 p0 [= <-] Hp0. rewrite Hp in Hp0. injection Hp0 as <-.
      assert (fresh (dom (heap w)) ≠ ptr) as Hne.
      { intros Heq. pose proof (fresh_cell (heap w)) as Hf.
        rewrite Heq in Hf. congruence. }
      split; [by rewrite lookup_insert_ne|].
      exists (fresh (dom (heap w))). by rewrite fresh_cell.
    + rewrite Hcases in Hrun. injection Hrun as <- <-.
      do 3 (split; [done|]). intros ptr0 p0 [= <-] Hp0. congruence.
  - rewrite Hcases in Hrun. injection Hrun as <- <-.
    do 3 (split; [done|]). intros ptr0 p0 [=].
Qed.

(** The result of the redactor is a function of what an encoder sees of
    the configuration, and so is the success of the call. *)
Lemma redactedInstallConfig_result (config : InstallConfig loc) (w : World) :
  (redactedInstallConfig config w).1
  = match follow (heap w) config with
    | Some v =>
        Returns (yaml_Marshal_InstallConfig
                   (set_VSphere (cleared <$> VSphere (PlatformOf v))
                                (set_PullSecret EmptyString v)))
    | None => Panics "invalid memory address or nil pointer dereference"
    end.
Proof.
  pose proof (redactedInstallConfig_cases config w) as Hcases.
  unfold follow. destruct (VSphere (PlatformOf config)) as [ptr|] eqn:Hptr.
  - destruct (heap w !! ptr) as [p|]; by rewrite Hcases.
  - by rewrite Hcases.
Qed.

(** ** Generate, case by case *)

Lemma Generate_cases (dependencies : Parents) (w : World) :
  match installConfig_Config dependencies with
  | None =>
      Generate dependencies w
      = (Panics "invalid memory address or nil pointer dereference", w)
  | Some config =>
      match redactedInstallConfig config w with
      | (Panics reason, w1) => Generate dependencies w = (Panics reason, w1)
      | (Returns (Err err), w1) =>
          Generate dependencies w
          = (Returns (Some (errors_Wrap err "failed to redact install-config")), w1)
      | (Returns (Ok redactedConfig), w1) =>
          let kubeSysConfig := statusRecord redactedConfig in
          match yaml_Marshal_configurationObject kubeSysConfig with
          | Err err =>
              Generate dependencies w
              = (Returns (Some (errors_Wrap err
                   "failed to create kube-system/cluster-config-v1 configmap")),
                 withManifests w1 {| KubeSysConfig := Some kubeSysConfig;
                                     FileList := FileList (manifests w1) |})
          | Ok kubeSysConfigData =>
              match generateBootKubeManifests dependencies with
              | Panics reason =>
                  Generate dependencies w
                  = (Panics reason,
                     withManifests w1
                       {| KubeSysConfig := Some kubeSysConfig;
                          FileList := [ {| Filename := kubeSysConfigPath;
                                           Data := kubeSysConfigData |} ] |})
              | Returns bootkubeFiles =>
                  Generate dependencies w
                  = (Returns None,
                     withManifests w1
                       {| KubeSysConfig := Some kubeSysConfig;
                          FileList := SortFiles (collected dependencies
                                        kubeSysConfigData bootkubeFiles) |})
              end
          end
      end
  end.
Proof.
  unfold Generate, mbind, Go_bind, bind, lift.
  destruct (installConfig_Config dependencies) as [config|]; [|done].
  destruct (redactedInstallConfig config w) as [[[redacted|err]|reason] w1];
    [|done..].
  cbn. unfold statusRecord.
  destruct (yaml_Marshal_configurationObject _) as [data|err]; [|done].
  cbn. by destruct (generateBootKubeManifests dependencies).
Qed.

(** The two error returns of [Generate]. *)
Lemma Generate_error (dependencies : Parents) (w w' : World) (e : error) :
  Generate dependencies w = (Returns (Some e), w') →
  ∃ config,
    installConfig_Config dependencies = Some config
    ∧ ((∃ cause,
          redactedInstallConfig config w = (Returns (Err cause), w')
          ∧ e = errors_Wrap cause "failed to redact install-config")
       ∨ (∃ redactedConfig w1 cause,
            redactedInstallConfig config w = (Returns (Ok redactedConfig), w1)
            ∧ yaml_Marshal_configurationObject (statusRecord redactedConfig)
              = Err cause
            ∧ e = errors_Wrap cause
                    "failed to create kube-system/cluster-config-v1 configmap"
            ∧ w' = withManifests w1
                     {| KubeSysConfig := Some (statusRecord redactedConfig);
                        FileList := FileList (manifests w1) |})).
Proof.
  intros Hrun. pose proof (Generate_cases dependencies w) as Hcases.
  destruct (installConfig_Config dependencies) as [config|]; [|congruence].
  exists config. split; [done|].
  destruct (redactedInstallConfig config w) as [[[redacted|err]|reason] w1];
    [| |congruence].
  - cbn zeta in Hcases.
    destruct (yaml_Marshal_configurationObject _) as [data|err] eqn:Hdata.
    + destruct (generateBootKubeManifests dependencies); congruence.
    + rewrite Hcases in Hrun. injection Hrun as <- <-. right.
      by exists redacted, w1, err.
  - rewrite Hcases in Hrun. injection Hrun as <- <-. left. by exists err.
Qed.

(** C6: failure atomicity.  Whenever [Generate] returns an error, the
    file list of the asset is the one it had before the call, so an
    empty merged set stays empty and [Files] returns no artifact; the
    error is the wrapped redaction failure or the wrapped serialization
    failure of the status record. *)
Theorem Generate_error_keeps_FileList
    (dependencies : Parents) (w w' : World) (e : error) :
  Generate dependencies w = (Returns (Some e), w') →
  FileList (manifests w') = FileList (manifests w)
  ∧ (FileList (manifests w) = [] → Files (manifests w') = [])
  ∧ ((∃ cause, e = errors_Wrap cause "failed to redact install-config")
     ∨ (∃ cause, e = errors_Wrap cause
          "failed to create kube-system/cluster-config-v1 configmap")).
Proof.
  intros (config & _ & [(cause & Hred & ->)|(redacted & w1 & cause & Hred & _ & -> & ->)])
    %Generate_error;
    apply redactedInstallConfig_frame in Hred as (Hm & _).
  - unfold Files. rewrite Hm. eauto.
  - unfold Files. cbn [withManifests manifests FileList]. rewrite Hm. eauto.
Qed.

Lemma redactedInstallConfig_same_view (config : InstallConfig loc) (w w' : World) :
  follow (heap w) config = follow (heap w') config →
  (redactedInstallConfig config w).1 = (redactedInstallConfig config w').1.
Proof. intros Hview. by rewrite !redactedInstallConfig_result, Hview. Qed.

(** What a successful [Generate] has gone through. *)
Lemma Generate_success (dependencies : Parents) (w w' : World) :
  Generate dependencies w = (Returns None, w') →
  ∃ config redactedConfig kubeSysConfigData bootkubeFiles w1,
    installConfig_Config dependencies = Some config
    ∧ redactedInstallConfig config w = (Returns (Ok redactedConfig), w1)
    ∧ yaml_Marshal_configurationObject (statusRecord redactedConfig)
      = Ok kubeSysConfigData
    ∧ generateBootKubeManifests dependencies = Returns bootkubeFiles
    ∧ w' = withManifests w1
             {| KubeSysConfig := Some (statusRecord redactedConfig);
                FileList := SortFiles (collected dependencies kubeSysConfigData
                                                 bootkubeFiles) |}.
Proof.
  intros Hrun. pose proof (Generate_cases dependencies w) as Hcases.
  destruct (installConfig_Config dependencies) as [config|]; [|congruence].
  destruct (redactedInstallConfig config w) as [[[redacted|err]|reason] w1] eqn:Hred;
    [|congruence..].
  cbn zeta in Hcases.
  destruct (yaml_Marshal_configurationObject _) as [data|err] eqn:Hdata;
    [|congruence].
  destruct (generateBootKubeManifests dependencies) as [files|] eqn:Hfiles;
    [|congruence].
  rewrite Hcases in Hrun. injection Hrun as <-.
  by exists config, redacted, data, files, w1.
Qed.

(** C5: determinism.  After a successful [Generate], running it again on
    the same dependencies succeeds with the same file list; the list is
    sorted by path; and it is the sort of the collected files, so that
    collecting them in another order gives the same sequence of paths,
    and the same list when the paths are unique. *)
Theorem Generate_deterministic_sorted (dependencies : Parents) (w w1 : World) :
  Generate dependencies w = (Returns None, w1) →
  (∃ w2, Generate dependencies w1 = (Returns None, w2)
         ∧ FileList (manifests w2) = FileList (manifests w1))
  ∧ StronglySorted pathLe (FileList (manifests w1))
  ∧ ∃ kubeSysConfigData bootkubeFiles,
      generateBootKubeManifests dependencies = Returns bootkubeFiles
      ∧ FileList (manifests w1)
        = SortFiles (collected dependencies kubeSysConfigData bootkubeFiles)
      ∧ ∀ reordered,
          reordered ≡ₚ collected dependencies kubeSysConfigData bootkubeFiles →
          Filename <$> SortFiles reordered = Filename <$> FileList (manifests w1)
          ∧ (NoDup (Filename <$> FileList (manifests w1)) →
             SortFiles reordered = FileList (manifests w1)).
Proof.
  intros (config & redacted & data & files & w0 & Hconfig & Hred & Hdata & Hfiles & ->)
    %Generate_success.
  cbn [withManifests manifests FileList]. split; [|split].
  - pose proof (Generate_cases dependencies
                  (withManifests w0
                     {| KubeSysConfig := Some (statusRecord redacted);
                        FileList := SortFiles (collected dependencies data files) |}))
      as Hcases.
    rewrite Hconfig in Hcases.
    pose proof (redactedInstallConfig_same_view config w
                  (withManifests w0
                     {| KubeSysConfig := Some (statusRecord redacted);
                        FileList := SortFiles (collected dependencies data files) |}))
      as Hsame.
    rewrite Hred in Hsame. cbn [fst withManifests heap] in Hsame.
    apply redactedInstallConfig_frame in Hred as (_ & Hview).
    specialize (Hsame (eq_sym Hview)).
    destruct (redactedInstallConfig config _) as [r w3]. cbn [fst] in Hsame.
    subst r. cbn zeta in Hcases. rewrite Hdata, Hfiles in Hcases.
    eexists. split; [exact Hcases|done].
  - apply SortFiles_sorted.
  - exists data, files. split; [done|]. split; [done|]. intros reordered Hperm.
    split; [by apply SortFiles_paths_Permutation|]. intros Hnodup.
    apply SortFiles_Permutation_eq; [|done].
    by rewrite <- (SortFiles_Permutation (collected dependencies data files)).
Qed.

(** ** No secret in the status record *)

Lemma follow_otherSecrets (pullSecret username password : string)
    (config : InstallConfig loc) (h : Heap) :
  follow (match VSphere (PlatformOf config) with
          | Some ptr => alter (otherCredentials username password) ptr h
          | None => h
          end) (set_PullSecret pullSecret config)
  = (λ v, set_VSphere (otherCredentials username password <$> VSphere (PlatformOf v))
                      (set_PullSecret pullSecret v)) <$> follow h config.
Proof.
  unfold follow. cbn [set_PullSecret PlatformOf VSphere].
  destruct (VSphere (PlatformOf config)) as [ptr|]; [|done].
  rewrite lookup_alter_eq. by destruct (h !! ptr).
Qed.

Lemma redactedInstallConfig_otherSecrets (pullSecret username password : string)
    (dependencies : Parents) (config : InstallConfig loc) (w : World) :
  installConfig_Config dependencies = Some config →
  (redactedInstallConfig (set_PullSecret pullSecret config)
     (otherSecretsWorld username password dependencies w)).1
  = (redactedInstallConfig config w).1.
Proof.
  intros Hconfig. rewrite !redactedInstallConfig_result.
  unfold otherSecretsWorld. rewrite Hconfig.
  pose proof (follow_otherSecrets pullSecret username password config (heap w)) as Hf.
  destruct (VSphere (PlatformOf config)) as [ptr|] eqn:Hptr; cbn [heap];
    rewrite Hf; destruct (follow (heap w) config) as [v|]; try done;
    cbn [fmap option_fmap option_map]; do 2 f_equal;
    destruct v as [ps cp [[p|] pr] cr]; done.
Qed.

Lemma kubeSysConfig_collected (dependencies : Parents) (data : string)
    (files : list File) :
  {| Filename := kubeSysConfigPath; Data := data |}
  ∈ SortFiles (collected dependencies data files).
Proof.
  rewrite SortFiles_Permutation. unfold collected.
  rewrite <- !app_assoc. apply elem_of_app. left. apply list_elem_of_singleton. done.
Qed.

(** C1: no secret in the status record.  Take any dependencies and store,
    and the same with another pull secret and other vSphere credentials.
    The two runs of [Generate] leave the same status record, return the
    same error if any, and where both succeed their file lists hold the
    same status record file; its text is the serialization of a
    configuration whose pull secret and vSphere credentials are empty. *)
Theorem status_record_independent_of_secrets
    (dependencies : Parents) (w : World) (pullSecret username password : string)
    (r1 r2 : outcome (option error)) (w1 w2 : World) :
  Generate dependencies w = (r1, w1) →
  Generate (otherSecretsParents pullSecret dependencies)
           (otherSecretsWorld username password dependencies w) = (r2, w2) →
  KubeSysConfig (manifests w1) = KubeSysConfig (manifests w2)
  ∧ (∀ e, r1 = Returns (Some e) ↔ r2 = Returns (Some e))
  ∧ (r1 = Returns None →
     ∃ redactedConfig kubeSysConfigData v,
       KubeSysConfig (manifests w1) = Some (statusRecord redactedConfig)
       ∧ yaml_Marshal_InstallConfig v = Ok redactedConfig
       ∧ PullSecret v = EmptyString
       ∧ (∀ p, VSphere (PlatformOf v) = Some p →
            Username p = EmptyString ∧ Password p = EmptyString)
       ∧ yaml_Marshal_configurationObject (statusRecord redactedConfig)
         = Ok kubeSysConfigData
       ∧ {| Filename := kubeSysConfigPath; Data := kubeSysConfigData |}
         ∈ FileList (manifests w1)
       ∧ (r2 = Returns None →
          {| Filename := kubeSysConfigPath; Data := kubeSysConfigData |}
          ∈ FileList (manifests w2))).
Proof.
  intros Hrun1 Hrun2.
  pose proof (Generate_cases dependencies w) as Hc1.
  pose proof (Generate_cases (otherSecretsParents pullSecret dependencies)
                (otherSecretsWorld username password dependencies w)) as Hc2.
  cbn [otherSecretsParents set_installConfig_Config installConfig_Config] in Hc2.
  assert (manifests (otherSecretsWorld username password dependencies w)
          = manifests w) as Hm0.
  { unfold otherSecretsWorld. destruct (installConfig_Config dependencies) as [c|];
      [|done]. by destruct (VSphere (PlatformOf c)). }
  destruct (installConfig_Config dependencies) as [config|] eqn:Hconfig;
    cbn [fmap option_fmap option_map] in Hc2.
  2:{ rewrite Hc1 in Hrun1. rewrite Hc2 in Hrun2.
      injection Hrun1 as <- <-. injection Hrun2 as <- <-.
      rewrite Hm0. split; [done|]. split; [done|]. intros [=]. }
  pose proof (redactedInstallConfig_otherSecrets pullSecret username password
                dependencies config w Hconfig) as Hsame.
  pose proof (redactedInstallConfig_result config w) as Hres.
  destruct (redactedInstallConfig config w) as [o wa] eqn:Hred1.
  destruct (redactedInstallConfig (set_PullSecret pullSecret config) _)
    as [o' wb] eqn:Hred2.
  cbn [fst] in Hsame, Hres. subst o'.
  apply redactedInstallConfig_frame in Hred1 as (Hma & _).
  apply redactedInstallConfig_frame in Hred2 as (Hmb & _).
  rewrite Hm0 in Hmb.
  destruct o as [[redacted|err]|reason].
  - cbn zeta in Hc1, Hc2.
    destruct (yaml_Marshal_configurationObject (statusRecord redacted))
      as [data|err] eqn:Hdata.
    + assert (∃ v, yaml_Marshal_InstallConfig v = Ok redacted
                   ∧ PullSecret v = EmptyString
                   ∧ ∀ p, VSphere (PlatformOf v) = Some p →
                          Username p = EmptyString ∧ Password p = EmptyString)
        as (v & Hv & Hps & Hcred).
      { destruct (follow (heap w) config) as [v0|]; [|done].
        injection Hres as Hres. eexists. split; [by rewrite Hres|].
        split; [done|]. cbn [PlatformOf VSphere set_VSphere].
        intros p. destruct (VSphere (PlatformOf v0)); [|done]. by intros [= <-]. }
      destruct (generateBootKubeManifests dependencies) as [files|];
        destruct (generateBootKubeManifests _) as [files'|];
        rewrite Hc1 in Hrun1; rewrite Hc2 in Hrun2;
        injection Hrun1 as <- <-; injection Hrun2 as <- <-;
        cbn [withManifests manifests KubeSysConfig FileList];
        (split; [done|]); (split; [done|]); intros Hr1; try discriminate Hr1;
        exists redacted, data, v; repeat (split; [done|]);
        (split; [apply kubeSysConfig_collected|]);
        intros Hr2; try discriminate Hr2; apply kubeSysConfig_collected.
    + rewrite Hc1 in Hrun1. rewrite Hc2 in Hrun2.
      injection Hrun1 as <- <-. injection Hrun2 as <- <-.
      cbn [withManifests manifests KubeSysConfig].
      split; [done|]. split; [done|]. intros [=].
  - rewrite Hc1 in Hrun1. rewrite Hc2 in Hrun2.
    injection Hrun1 as <- <-. injection Hrun2 as <- <-.
    rewrite Hma, Hmb. split; [done|]. split; [done|]. intros [=].
  - rewrite Hc1 in Hrun1. rewrite Hc2 in Hrun2.
    injection Hrun1 as <- <-. injection Hrun2 as <- <-.
    rewrite Hma, Hmb. split; [done|]. split; [done|]. intros [=].
Qed.

(** ** The bound-value schema *)

Lemma assign_each {A} (f : nat → A) (k a : nat) (l : list A) (i : nat) :
  (a + k ≤ length l)%nat →
  foldl (λ l i, <[i := f i]> l) l (seq a k) !! i
  = if decide (a ≤ i < a + k)%nat then Some (f i) else l !! i.
Proof.
  revert a l. induction k as [|k IH]; intros a l Hlen; cbn [seq foldl].
  - case_decide; [lia|done].
  - rewrite IH by (rewrite length_insert; lia).
    destruct (decide (i = a)) as [->|Hne].
    + rewrite list_lookup_insert_eq by lia. repeat case_decide; (done || lia).
    + rewrite list_lookup_insert_ne by done. repeat case_decide; (done || lia).
Qed.

Lemma assign_each_length {A} (f : nat → A) (k a : nat) (l : list A) :
  length (foldl (λ l i, <[i := f i]> l) l (seq a k)) = length l.
Proof.
  revert a l. induction k as [|k IH]; intros a l; cbn [seq foldl]; [done|].
  by rewrite IH, length_insert.
Qed.

Lemma makeEtcdEndpointHostnames_spec (n : Z) :
  0 ≤ n →
  ∃ hostnames,
    makeEtcdEndpointHostnames n = Returns hostnames
    ∧ length hostnames = Z.to_nat n
    ∧ ∀ i : nat, (i < Z.to_nat n)%nat →
        hostnames !! i = Some ("etcd-" +:+ fmt.Sprintf_d (Z.of_nat i)).
Proof.
  intros Hn. unfold makeEtcdEndpointHostnames. case_decide; [lia|].
  eexists. split; [done|]. split.
  - by rewrite assign_each_length, length_replicate.
  - intros i Hi. rewrite assign_each by (rewrite length_replicate; lia).
    case_decide; [done|lia].
Qed.

(** ** Template binding *)

Lemma all_assets_templated (a : BootkubeAsset) : a ∈ templatedAssets.
Proof. apply list_elem_of_In. destruct a; cbn; tauto. Qed.

Lemma renderFiles_spec (templateData : bootkubeTemplateData)
    (sources files out : list File) :
  renderFiles templateData sources files = Returns out →
  ∃ rendered, out = files ++ rendered
              ∧ Forall2 (rendering templateData) sources rendered.
Proof.
  revert files. induction sources as [|f rest IH]; intros files; cbn [renderFiles].
  - intros [= <-]. exists []. by rewrite app_nil_r.
  - destruct (applyTemplateData (Data f) templateData) as [data|reason] eqn:Hf;
      cbn [mbind outcome_bind]; [|done].
    intros (rendered & -> & Hall)%IH.
    exists ({| Filename := manifestPath (Filename f); Data := data |} :: rendered).
    split; [by rewrite <- app_assoc|]. by constructor.
Qed.

Lemma renderAssets_spec (dependencies : Parents) (templateData : bootkubeTemplateData)
    (assets : list BootkubeAsset) (files out : list File) :
  renderAssets dependencies templateData assets files = Returns out →
  ∃ rendered, out = files ++ rendered
              ∧ Forall2 (rendering templateData)
                        (mjoin (bootkube_Files dependencies <$> assets)) rendered.
Proof.
  revert files. induction assets as [|a rest IH]; intros files; cbn [renderAssets].
  - intros [= <-]. exists []. by rewrite app_nil_r.
  - destruct (renderFiles _ _ _) as [files'|reason] eqn:Ha;
      cbn [mbind outcome_bind]; [|done].
    apply renderFiles_spec in Ha as (r1 & -> & Hall1).
    intros (r2 & -> & Hall2)%IH. exists (r1 ++ r2).
    split; [by rewrite <- app_assoc|]. rewrite fmap_cons. cbn [mjoin list_join].
    by apply Forall2_app.
Qed.

Lemma renderFiles_panics (templateData : bootkubeTemplateData)
    (sources files : list File) (source : File) (reason : string) :
  source ∈ sources →
  applyTemplateData (Data source) templateData = Panics reason →
  ∃ reason', renderFiles templateData sources files = Panics reason'.
Proof.
  intros Hin Hfail. revert files.
  induction sources as [|f rest IH]; intros files; [by apply elem_of_nil in Hin|].
  cbn [renderFiles].
  destruct (applyTemplateData (Data f) templateData) as [data|reason'] eqn:Hf;
    cbn [mbind outcome_bind]; [|by eexists].
  apply elem_of_cons in Hin as [->|Hin]; [congruence|]. by apply IH.
Qed.

Lemma renderAssets_panics (dependencies : Parents) (templateData : bootkubeTemplateData)
    (assets : list BootkubeAsset) (files : list File)
    (a : BootkubeAsset) (source : File) (reason : string) :
  a ∈ assets → source ∈ bootkube_Files dependencies a →
  applyTemplateData (Data source) templateData = Panics reason →
  ∃ reason', renderAssets dependencies templateData assets files = Panics reason'.
Proof.
  intros Ha Hin Hfail. revert files.
  induction assets as [|b rest IH]; intros files; [by apply elem_of_nil in Ha|].
  cbn [renderAssets].
  destruct (renderFiles templateData (bootkube_Files dependencies b) files)
    as [files'|reason'] eqn:Hb; cbn [mbind outcome_bind]; [|by eexists].
  apply elem_of_cons in Ha as [->|Ha]; [|by apply IH].
  destruct (renderFiles_panics templateData (bootkube_Files dependencies b) files
              source reason Hin Hfail) as [reason' Hp].
  congruence.
Qed.

Lemma generateBootKubeManifests_spec (dependencies : Parents) (files : list File) :
  generateBootKubeManifests dependencies = Returns files →
  ∃ templateData,
    bootkubeData dependencies = Returns templateData
    ∧ Forall2 (rendering templateData)
              (mjoin (bootkube_Files dependencies <$> templatedAssets)) files.
Proof.
  unfold generateBootKubeManifests.
  destruct (bootkubeData dependencies) as [templateData|]; cbn [mbind outcome_bind];
    [|done].
  intros (rendered & -> & Hall)%renderAssets_spec. by exists templateData.
Qed.

(** C10: where the templated files go.  After a successful [Generate],
    the files of the templated dependencies and the files rendered from
    them correspond one to one, in order; each rendered file is in the
    file list of the asset, its content is the template applied to the
    bound-value schema, and its path joins the manifest directory with
    the base name of the source path less a trailing ".template"; when
    that name is an ordinary file name the path is the name directly
    under manifests/. *)
Theorem templated_files_placed_under_manifestDir
    (dependencies : Parents) (w w' : World) :
  Generate dependencies w = (Returns None, w') →
  ∃ templateData rendered,
    bootkubeData dependencies = Returns templateData
    ∧ generateBootKubeManifests dependencies = Returns rendered
    ∧ Forall2 (rendering templateData)
              (mjoin (bootkube_Files dependencies <$> templatedAssets)) rendered
    ∧ ∀ a source, source ∈ bootkube_Files dependencies a →
        ∃ out, out ∈ rendered ∧ out ∈ FileList (manifests w')
          ∧ applyTemplateData (Data source) templateData = Returns (Data out)
          ∧ let name := strings.TrimSuffix (filepath.Base (Filename source))
                                           ".template" in
            Filename out = filepath.Join [manifestDir; name]
            ∧ (name ∉ [EmptyString; "."; ".."; String Separator EmptyString] →
               filepath.isElement name = true
               ∧ Filename out = manifestDir +:+ String Separator name).
Proof.
  intros (config & redacted & data & files & w0 & Hconfig & Hred & Hdata & Hfiles & ->)
    %Generate_success.
  destruct (generateBootKubeManifests_spec dependencies files Hfiles)
    as (templateData & Htd & Hall).
  exists templateData, files. do 3 (split; [done|]). intros a source Hsource.
  assert (source ∈ mjoin (bootkube_Files dependencies <$> templatedAssets)) as Hin.
  { apply list_elem_of_join. exists (bootkube_Files dependencies a).
    split; [done|]. apply list_elem_of_fmap_2, all_assets_templated. }
  apply list_elem_of_lookup in Hin as [i Hi].
  destruct (Forall2_lookup_l _ _ _ _ _ Hall Hi) as (out & Hout & Hname & Hdata').
  exists out. split; [by eapply list_elem_of_lookup_2|]. split.
  { cbn [withManifests manifests FileList]. rewrite SortFiles_Permutation.
    unfold collected. rewrite !elem_of_app. do 4 left. right.
    by eapply list_elem_of_lookup_2. }
  split; [done|]. cbn zeta. split; [done|]. intros Hordinary.
  rewrite !not_elem_of_cons in Hordinary.
  destruct Hordinary as (Hempty & Hdot & Hdotdot & Hsep & _).
  assert (filepath.isElement
            (strings.TrimSuffix (filepath.Base (Filename source)) ".template")
          = true) as Helement.
  { destruct (Base_element (Filename source)) as [Hbase|Hbase].
    - rewrite Hbase in Hsep. by destruct Hsep.
    - by apply TrimSuffix_element. }
  split; [done|]. rewrite Hname. by apply Join_manifestDir.
Qed.

(** [applyTemplateData] panics exactly when the template does not parse
    or does not execute. *)
Lemma applyTemplateData_panics (data : string) (templateData : bootkubeTemplateData)
    (reason : string) :
  applyTemplateData data templateData = Panics reason
  ↔ template_Parse customTmplFuncs data = Err reason
    ∨ ∃ template, template_Parse customTmplFuncs data = Ok template
                  ∧ template_Execute template templateData = Err reason.
Proof.
  unfold applyTemplateData.
  destruct (template_Parse customTmplFuncs data) as [template|err].
  - destruct (template_Execute template templateData) as [buf|err] eqn:Hexec.
    + split; [done|]. intros [[=]|(t & [= <-] & Ht)]. congruence.
    + split.
      * intros [= <-]. right. by exists template.
      * intros [[=]|(t & [= <-] & Ht)]. congruence.
  - split.
    + intros [= <-]. by left.
    + intros [[= <-]|(t & [=] & _)]. done.
Qed.

Lemma applyTemplateData_returns (data : string) (templateData : bootkubeTemplateData)
    (buf : string) :
  applyTemplateData data templateData = Returns buf
  ↔ ∃ template, template_Parse customTmplFuncs data = Ok template
                ∧ template_Execute template templateData = Ok buf.
Proof.
  unfold applyTemplateData.
  destruct (template_Parse customTmplFuncs data) as [template|err].
  - destruct (template_Execute template templateData) as [out|err] eqn:Hexec.
    + split.
      * intros [= <-]. by exists template.
      * intros (t & [= <-] & Ht). congruence.
    + split; [done|]. intros (t & [= <-] & Ht). congruence.
  - split; [done|]. by intros (t & [=] & _).
Qed.

(** What a successful [Generate] has rendered: every file of a templated
    asset has its rendering among the files of the asset. *)
Lemma Generate_rendered (dependencies : Parents) (w w' : World) :
  Generate dependencies w = (Returns None, w') →
  ∃ templateData,
    bootkubeData dependencies = Returns templateData
    ∧ ∀ a source, source ∈ bootkube_Files dependencies a →
        ∃ out, out ∈ FileList (manifests w') ∧ rendering templateData source out.
Proof.
  intros (config & redacted & data & files & w0 & Hconfig & Hred & Hdata & Hfiles & ->)
    %Generate_success.
  destruct (generateBootKubeManifests_spec dependencies files Hfiles)
    as (templateData & Htd & Hall).
  exists templateData. split; [done|]. intros a source Hsource.
  assert (source ∈ mjoin (bootkube_Files dependencies <$> templatedAssets)) as Hin.
  { apply list_elem_of_join. exists (bootkube_Files dependencies a).
    split; [done|]. apply list_elem_of_fmap_2, all_assets_templated. }
  apply list_elem_of_lookup in Hin as [i Hi].
  destruct (Forall2_lookup_l _ _ _ _ _ Hall Hi) as (out & Hout & Hrendering).
  exists out. split; [|done].
  cbn [withManifests manifests FileList]. rewrite SortFiles_Permutation.
  unfold collected. rewrite !elem_of_app. do 4 left. right.
  by eapply list_elem_of_lookup_2.
Qed.

(** C7: replica-derived naming.  For a control-plane replica count
    n >= 0, the schema that [generateBootKubeManifests] builds holds
    exactly n endpoint hostnames, the one at index i being "etcd-" followed
    by the decimal numeral of i; for n = 3 these are etcd-0, etcd-1 and
    etcd-2.  This schema is the one [generateBootKubeManifests] binds
    every templated file against, and after a successful [Generate] every
    file of a templated asset has, in the file list of the asset, the
    output of its template executed on this schema. *)
Theorem etcd_endpoint_hostnames_by_replicas
    (dependencies : Parents) (config : InstallConfig loc) (pool : MachinePool)
    (n : Z) :
  installConfig_Config dependencies = Some config →
  ControlPlane config = Some pool →
  Replicas pool = Some n →
  0 ≤ n →
  ∃ templateData,
    bootkubeData dependencies = Returns templateData
    ∧ length (EtcdEndpointHostnames templateData) = Z.to_nat n
    ∧ (∀ i : nat, (i < Z.to_nat n)%nat →
         EtcdEndpointHostnames templateData !! i
         = Some ("etcd-" +:+ fmt.Sprintf_d (Z.of_nat i)))
    ∧ (n = 3 →
       EtcdEndpointHostnames templateData = ["etcd-0"; "etcd-1"; "etcd-2"])
    ∧ generateBootKubeManifests dependencies
      = renderAssets dependencies templateData templatedAssets []
    ∧ ∀ w w', Generate dependencies w = (Returns None, w') →
        ∀ a source, source ∈ bootkube_Files dependencies a →
          ∃ template out,
            template_Parse customTmplFuncs (Data source) = Ok template
            ∧ template_Execute template templateData = Ok (Data out)
            ∧ Filename out = manifestPath (Filename source)
            ∧ out ∈ FileList (manifests w').
Proof.
  intros Hconfig Hpool Hreplicas Hn.
  destruct (makeEtcdEndpointHostnames_spec n Hn) as (hostnames & Hmake & Hlen & Hnth).
  assert (∃ templateData, bootkubeData dependencies = Returns templateData
                          ∧ EtcdEndpointHostnames templateData = hostnames)
    as (templateData & Hdata & Hnames).
  { unfold bootkubeData, controlPlaneReplicas.
    rewrite Hconfig, Hpool, Hreplicas. cbn [mbind outcome_bind]. rewrite Hmake.
    by eexists. }
  exists templateData. split; [done|]. rewrite Hnames.
  split; [done|]. split; [done|]. split; [|split].
  - intros ->. by injection Hmake as <-.
  - unfold generateBootKubeManifests. by rewrite Hdata.
  - intros w w' (templateData' & Hdata' & Hrendered)%Generate_rendered a source Hsource.
    rewrite Hdata in Hdata'. injection Hdata' as <-.
    destruct (Hrendered a source Hsource) as (out & Hin & Hname & Happly).
    apply applyTemplateData_returns in Happly as (template & Hparse & Hexec).
    by exists template, out.
Qed.

(** C3, as the code has it: a template that does not parse or does not
    execute makes [applyTemplateData] panic, and the panic unwinds through
    [generateBootKubeManifests] and [Generate].  No binding error is
    returned: [Generate] cannot return nil, the only errors it can return
    are those of the redaction and of the serialization of the status
    record, which come before any template is bound, and once these two
    steps have passed it panics, the file list of the asset then holding
    the status record file alone. *)
Theorem template_failure_unwinds_Generate
    (dependencies : Parents) (w : World) (templateData : bootkubeTemplateData)
    (a : BootkubeAsset) (source : File) (reason : string) :
  bootkubeData dependencies = Returns templateData →
  source ∈ bootkube_Files dependencies a →
  (template_Parse customTmplFuncs (Data source) = Err reason
   ∨ ∃ template, template_Parse customTmplFuncs (Data source) = Ok template
                 ∧ template_Execute template templateData = Err reason) →
  applyTemplateData (Data source) templateData = Panics reason
  ∧ (∃ reason', generateBootKubeManifests dependencies = Panics reason')
  ∧ (∀ r w', Generate dependencies w = (r, w') →
       r ≠ Returns None
       ∧ (∀ e, r = Returns (Some e) →
            (∃ cause, e = errors_Wrap cause "failed to redact install-config")
            ∨ (∃ cause, e = errors_Wrap cause
                 "failed to create kube-system/cluster-config-v1 configmap")))
  ∧ (∀ config redactedConfig w1 kubeSysConfigData,
       installConfig_Config dependencies = Some config →
       redactedInstallConfig config w = (Returns (Ok redactedConfig), w1) →
       yaml_Marshal_configurationObject (statusRecord redactedConfig)
       = Ok kubeSysConfigData →
       ∃ reason',
         Generate dependencies w
         = (Panics reason',
            withManifests w1
              {| KubeSysConfig := Some (statusRecord redactedConfig);
                 FileList := [ {| Filename := kubeSysConfigPath;
                                  Data := kubeSysConfigData |} ] |})).
Proof.
  intros Htd Hsource Hfail. apply applyTemplateData_panics in Hfail.
  assert (∃ reason', generateBootKubeManifests dependencies = Panics reason')
    as [reason' Hpanic].
  { unfold generateBootKubeManifests. rewrite Htd. cbn [mbind outcome_bind].
    eapply renderAssets_panics; [apply all_assets_templated|done..]. }
  split; [done|]. split; [by eexists|]. split.
  - intros r w' Hrun. split.
    + intros ->.
      apply Generate_success in Hrun as (? & ? & ? & ? & ? & _ & _ & _ & Hok & _).
      congruence.
    + intros e ->.
      apply Generate_error in Hrun
        as (config & _ & [(cause & _ & ->)|(redacted & w1 & cause & _ & _ & -> & _)]);
        eauto.
  - intros config redacted w1 data Hconfig Hred Hdata.
    pose proof (Generate_cases dependencies w) as Hcases.
    rewrite Hconfig, Hred in Hcases. cbn zeta in Hcases.
    rewrite Hdata, Hpanic in Hcases. eauto.
Qed.

(** ** Load *)

Lemma loadLoop_app (l1 l2 : list File) (kubeSysConfig : configurationObject)
    (found : bool) :
  loadLoop (l1 ++ l2) kubeSysConfig found
  = match loadLoop l1 kubeSysConfig found with
    | Ok (kubeSysConfig', found') => loadLoop l2 kubeSysConfig' found'
    | Err err => Err err
    end.
Proof.
  revert kubeSysConfig found.
  induction l1 as [|file rest IH]; intros kubeSysConfig found; [done|].
  cbn [app loadLoop]. case_decide; [|done].
  by destruct (yaml_Unmarshal (Data file) kubeSysConfig).
Qed.

Lemma loadLoop_absent (fileList : list File) (kubeSysConfig : configurationObject)
    (found : bool) :
  (∀ file, file ∈ fileList → Filename file ≠ kubeSysConfigPath) →
  loadLoop fileList kubeSysConfig found = Ok (kubeSysConfig, found).
Proof.
  induction fileList as [|file rest IH]; intros Habsent; [done|].
  cbn [loadLoop]. rewrite decide_False by (apply Habsent; left).
  apply IH. intros g Hg. apply Habsent. by right.
Qed.

Lemma loadLoop_found (fileList : list File) (kubeSysConfig kubeSysConfig' : configurationObject)
    (found found' : bool) :
  loadLoop fileList kubeSysConfig found = Ok (kubeSysConfig', found') →
  found' = true ↔
  found = true ∨ ∃ file, file ∈ fileList ∧ Filename file = kubeSysConfigPath.
Proof.
  revert kubeSysConfig found.
  induction fileList as [|file rest IH]; intros kubeSysConfig found; cbn [loadLoop].
  - intros [= <- <-]. split; [by left|]. intros [?|(? & []%elem_of_nil & _)]; done.
  - case_decide as Hpath.
    + destruct (yaml_Unmarshal (Data file) kubeSysConfig) as [o|]; [|done].
      intros Hrest%IH. rewrite Hrest. split; [|by left].
      intros _. right. exists file. split; [left|done].
    + intros Hrest%IH. rewrite Hrest. split.
      * intros [?|(g & Hg & Hgp)]; [by left|]. right. exists g. split; [by right|done].
      * intros [?|(g & Hg & Hgp)]; [by left|]. right. exists g. split; [|done].
        apply elem_of_cons in Hg as [->|Hg]; done.
Qed.

Lemma loadLoop_error (fileList : list File) (kubeSysConfig : configurationObject)
    (found : bool) :
  (∃ err, loadLoop fileList kubeSysConfig found = Err err)
  ↔ ∃ before file after kubeSysConfig' found' err,
      fileList = before ++ file :: after
      ∧ Filename file = kubeSysConfigPath
      ∧ loadLoop before kubeSysConfig found = Ok (kubeSysConfig', found')
      ∧ yaml_Unmarshal (Data file) kubeSysConfig' = Err err.
Proof.
  split.
  - revert kubeSysConfig found.
    induction fileList as [|file rest IH]; intros kubeSysConfig found; cbn [loadLoop];
      [by intros [? [=]]|].
    case_decide as Hpath.
    + destruct (yaml_Unmarshal (Data file) kubeSysConfig) as [o|err] eqn:Hdecode.
      * intros (before & g & after & o' & found' & err & -> & Hg & Hbefore & Herr)%IH.
        exists (file :: before), g, after, o', found', err.
        split; [done|]. split; [done|]. split; [|done].
        cbn [loadLoop]. rewrite decide_True by done. by rewrite Hdecode.
      * intros _. by exists [], file, rest, kubeSysConfig, found, err.
    + intros (before & g & after & o' & found' & err & -> & Hg & Hbefore & Herr)%IH.
      exists (file :: before), g, after, o', found', err.
      split; [done|]. split; [done|]. split; [|done].
      cbn [loadLoop]. by rewrite decide_False by done.
  - intros (before & file & after & o' & found' & err & -> & Hfile & Hbefore & Herr).
    rewrite loadLoop_app, Hbefore. cbn [loadLoop].
    rewrite decide_True by done. rewrite Herr. by eexists.
Qed.

(** With unique paths, the loop decodes the one file at the status record
    path into the empty object. *)
Lemma loadLoop_unique (fileList : list File) (file : File)
    (kubeSysConfig : configurationObject) (found : bool) :
  NoDup (Filename <$> fileList) → file ∈ fileList →
  Filename file = kubeSysConfigPath →
  loadLoop fileList kubeSysConfig found
  = match yaml_Unmarshal (Data file) kubeSysConfig with
    | Ok kubeSysConfig' => Ok (kubeSysConfig', true)
    | Err err => Err (errors_Wrap err "failed to unmarshal cluster-config.yaml")
    end.
Proof.
  intros Hnodup Hin Hpath.
  apply list_elem_of_split in Hin as (before & after & ->).
  rewrite fmap_app, fmap_cons in Hnodup.
  apply NoDup_app in Hnodup as (_ & Hbefore & [Hafter _]%NoDup_cons).
  rewrite loadLoop_app, loadLoop_absent.
  - cbn [loadLoop]. rewrite decide_True by done.
    destruct (yaml_Unmarshal (Data file) kubeSysConfig) as [o|]; [|done].
    apply loadLoop_absent. intros g Hg Hgp. apply Hafter.
    rewrite Hpath, <- Hgp. by apply list_elem_of_fmap_2.
  - intros g Hg Hgp. apply (Hbefore (Filename g)).
    + by apply list_elem_of_fmap_2.
    + rewrite Hgp, <- Hpath. left.
Qed.

Lemma Load_cases (f : FileFetcher) (w : World) :
  match @FetchByPattern f manifestPattern with
  | Err err => Load f w = (Returns (false, Some err), w)
  | Ok fileList =>
      match fileList with
      | [] => Load f w = (Returns (false, None), w)
      | _ :: _ =>
          match loadLoop fileList emptyConfigurationObject false with
          | Err err => Load f w = (Returns (false, Some err), w)
          | Ok (kubeSysConfig, false) => Load f w = (Returns (false, None), w)
          | Ok (kubeSysConfig, true) =>
              Load f w
              = (Returns (true, None),
                 withManifests w {| KubeSysConfig := Some kubeSysConfig;
                                    FileList := SortFiles fileList |})
          end
      end
  end.
Proof.
  unfold Load, manifestPattern.
  destruct (@FetchByPattern f _) as [fileList|err]; [|done].
  destruct fileList as [|file rest]; [done|].
  rewrite decide_False by done.
  destruct (loadLoop _ _ _) as [[kubeSysConfig [|]]|err]; done.
Qed.

(** C4: absence against malformed presence.  [Load] asks the fetcher for
    manifests/* and never panics.  When no fetched file is at the status
    record path (in particular when nothing is fetched) it returns
    (false, nil) and leaves the asset as it was.  It returns an error
    exactly when the fetch fails or a fetched file at the status record
    path does not decode; with unique paths, exactly when the file at that
    path does not decode into the empty object.  An error comes with
    found = false and an unchanged asset. *)
Theorem Load_absence_is_not_an_error (f : FileFetcher) (w : World) :
  manifestPattern = "manifests/*"
  ∧ (∃ res w', Load f w = (Returns res, w'))
  ∧ (∀ fileList, @FetchByPattern f manifestPattern = Ok fileList →
       (∀ file, file ∈ fileList → Filename file ≠ kubeSysConfigPath) →
       Load f w = (Returns (false, None), w))
  ∧ (∀ found e w', Load f w = (Returns (found, Some e), w') →
       found = false ∧ w' = w)
  ∧ ((∃ found e w', Load f w = (Returns (found, Some e), w'))
     ↔ (∃ err, @FetchByPattern f manifestPattern = Err err)
       ∨ (∃ fileList, @FetchByPattern f manifestPattern = Ok fileList
                      ∧ undecodable fileList))
  ∧ (∀ fileList file, @FetchByPattern f manifestPattern = Ok fileList →
       NoDup (Filename <$> fileList) → file ∈ fileList →
       Filename file = kubeSysConfigPath →
       (∃ found e w', Load f w = (Returns (found, Some e), w'))
       ↔ ∃ err, yaml_Unmarshal (Data file) emptyConfigurationObject = Err err).
Proof.
  pose proof (Load_cases f w) as Hcases.
  split; [done|]. split; [|split; [|split; [|split]]].
  - destruct (@FetchByPattern f manifestPattern) as [[|file rest]|err]; [by eauto| |by eauto].
    destruct (loadLoop _ _ _) as [[o [|]]|err]; by eauto.
  - intros fileList Hfetch Habsent. rewrite Hfetch in Hcases.
    destruct fileList as [|file rest]; [done|].
    by rewrite loadLoop_absent in Hcases.
  - intros found e w' Hrun.
    destruct (@FetchByPattern f manifestPattern) as [[|file rest]|err];
      [congruence| |by injection (eq_trans (eq_sym Hcases) Hrun)].
    destruct (loadLoop _ _ _) as [[o [|]]|err]; [congruence..|].
    by injection (eq_trans (eq_sym Hcases) Hrun).
  - split.
    + intros (found & e & w' & Hrun).
      destruct (@FetchByPattern f manifestPattern) as [fileList|err];
        [|left; by eexists].
      right. exists fileList. split; [done|]. apply loadLoop_error.
      destruct fileList as [|file rest]; [congruence|].
      destruct (loadLoop _ _ _) as [[o [|]]|err]; [congruence..|by eexists].
    + intros [[err Hfetch]|(fileList & Hfetch & Hbad)]; rewrite Hfetch in Hcases.
      * by eauto.
      * apply loadLoop_error in Hbad as [err Herr].
        destruct fileList as [|file rest]; [done|].
        rewrite Herr in Hcases. by eauto.
  - intros fileList file Hfetch Hnodup Hin Hpath. rewrite Hfetch in Hcases.
    pose proof (loadLoop_unique fileList file emptyConfigurationObject false
                  Hnodup Hin Hpath) as Hloop.
    destruct fileList as [|file0 rest]; [by apply elem_of_nil in Hin|].
    rewrite Hloop in Hcases.
    destruct (yaml_Unmarshal (Data file) emptyConfigurationObject) as [o|err].
    + split; [|by intros [? [=]]]. intros (found & e & w' & Hrun). congruence.
    + split; by eauto.
Qed.


End Properties.

(** * Further properties of the code *)

(** ** The template helpers *)

Lemma append_assoc (s t u : string) : (s +:+ t) +:+ u = s +:+ (t +:+ u).
Proof. induction s as [|c s IH]; [done|]. by rewrite !append_String, IH. Qed.

Lemma length_append (s t : string) :
  String.length (s +:+ t) = (String.length s + String.length t)%nat.
Proof.
  induction s as [|c s IH]; [done|].
  rewrite append_String. cbn [String.length]. by rewrite IH.
Qed.

Lemma spaces_add (n m : nat) : spaces n +:+ spaces m = spaces (n + m).
Proof.
  induction n as [|n IH]; [done|].
  change (spaces (S n)) with (String SP (spaces n)).
  change (spaces (S n + m)) with (String SP (spaces (n + m))).
  by rewrite append_String, IH.
Qed.

Lemma length_spaces (n : nat) : String.length (spaces n) = n.
Proof.
  induction n as [|n IH]; [done|].
  change (spaces (S n)) with (String SP (spaces n)). cbn [String.length].
  by rewrite IH.
Qed.

Lemma indentSpec_app (n : nat) (a b : string) :
  indentSpec n (a +:+ b) = indentSpec n a +:+ indentSpec n b.
Proof.
  induction a as [|c a IH]; [done|].
  rewrite append_String. cbn [indentSpec]. rewrite IH.
  case_decide; by rewrite !append_String, ?append_assoc.
Qed.

Lemma indentSpec_spaces (n m : nat) : indentSpec n (spaces m) = spaces m.
Proof.
  induction m as [|m IH]; [done|].
  change (spaces (S m)) with (String SP (spaces m)). cbn [indentSpec].
  rewrite decide_False by done. by rewrite IH.
Qed.

Lemma indentSpec_indentSpec (n m : nat) (v : string) :
  indentSpec n (indentSpec m v) = indentSpec (n + m) v.
Proof.
  induction v as [|c v IH]; [done|]. cbn [indentSpec].
  case_decide as Hc.
  - cbn [indentSpec]. rewrite decide_True by done.
    by rewrite indentSpec_app, indentSpec_spaces, IH, <- append_assoc, spaces_add.
  - cbn [indentSpec]. rewrite decide_False by done. by rewrite IH.
Qed.

Lemma length_indentSpec (n : nat) (v : string) :
  String.length (indentSpec n v)
  = (String.length v + n * countNewlines v)%nat.
Proof.
  induction v as [|c v IH]; [cbn; lia|]. cbn [indentSpec countNewlines].
  case_decide; cbn [String.length]; rewrite ?length_append, ?length_spaces, IH; lia.
Qed.

(** X1: indenting twice is indenting once by the sum.  For widths
    n, m >= 0, indenting by m and then by n gives what indenting by
    n + m gives. *)
Theorem indent_indent (n m : Z) (v : string) :
  0 ≤ n → 0 ≤ m →
  indent m v ≫= indent n = indent (n + m) v.
Proof.
  intros Hn Hm. rewrite !indent_indentSpec by lia.
  cbn [mbind outcome_bind]. rewrite indent_indentSpec by lia.
  by rewrite indentSpec_indentSpec, Z2Nat.inj_add.
Qed.

(** X2: indent works piece by piece.  For a width n >= 0, the
    indentation of a concatenation is the concatenation of the
    indentations, and the result is longer than the text by n bytes for
    each newline of the text. *)
Theorem indent_append_length (n : Z) (a b : string) :
  0 ≤ n →
  ∃ a' b',
    indent n a = Returns a' ∧ indent n b = Returns b'
    ∧ indent n (a +:+ b) = Returns (a' +:+ b')
    ∧ String.length a'
      = (String.length a + Z.to_nat n * countNewlines a)%nat.
Proof.
  intros Hn. exists (indentSpec (Z.to_nat n) a), (indentSpec (Z.to_nat n) b).
  rewrite !indent_indentSpec by done.
  by rewrite indentSpec_app, length_indentSpec.
Qed.

(** X3: the edges of indent.  It panics exactly when the width is
    negative, whatever the text; with width 0 it returns the text
    unchanged. *)
Theorem indent_panics_iff_negative (n : Z) (v : string) :
  ((∃ reason, indent n v = Panics reason) ↔ n < 0)
  ∧ indent 0 v = Returns v.
Proof.
  split.
  - split.
    + intros [reason Hpanic]. destruct (decide (n < 0)) as [|Hn]; [done|].
      rewrite indent_indentSpec in Hpanic by lia. done.
    + intros Hn. unfold indent, strings.Repeat. rewrite decide_True by done.
      by eexists.
  - rewrite indent_indentSpec by done. f_equal.
    induction v as [|c v IH]; [done|]. cbn [indentSpec Z.to_nat] in *.
    rewrite IH. by case_decide; subst.
Qed.

Lemma wrap64_range (z : Z) : inInt64 (wrap64 z).
Proof.
  unfold inInt64, wrap64.
  pose proof (Z.mod_pos_bound (z + 2 ^ 63) (2 ^ 64) ltac:(lia)). lia.
Qed.

Lemma wrap64_mod (z : Z) : wrap64 z mod 2 ^ 64 = z mod 2 ^ 64.
Proof.
  unfold wrap64. rewrite Zminus_mod, Z.mod_mod by lia.
  rewrite <- Zminus_mod. f_equal. lia.
Qed.

Lemma wrap64_eq (z z' : Z) : z mod 2 ^ 64 = z' mod 2 ^ 64 → wrap64 z = wrap64 z'.
Proof.
  intros Heq. unfold wrap64. f_equal.
  rewrite (Zplus_mod z), (Zplus_mod z'). by rewrite Heq.
Qed.

(** X4: the template function add is two's complement addition.  Its
    result is always in the range of a 64-bit int and congruent to the sum
    modulo 2^64; it is the sum itself when the sum is in range; addition
    is commutative and associative; and the largest int plus one is the
    least int. *)
Theorem add_wraps (i j k : Z) :
  inInt64 (add i j)
  ∧ add i j mod 2 ^ 64 = (i + j) mod 2 ^ 64
  ∧ (inInt64 (i + j) → add i j = i + j)
  ∧ add i j = add j i
  ∧ add (add i j) k = add i (add j k)
  ∧ add (2 ^ 63 - 1) 1 = - 2 ^ 63.
Proof.
  unfold add. split; [apply wrap64_range|]. split; [apply wrap64_mod|].
  split; [|split; [|split]].
  - unfold inInt64, wrap64. intros Hrange.
    rewrite Z.mod_small by lia. lia.
  - f_equal. lia.
  - apply wrap64_eq.
    rewrite (Zplus_mod (wrap64 (i + j))), wrap64_mod, <- Zplus_mod.
    rewrite (Zplus_mod i (wrap64 (j + k))), wrap64_mod, <- Zplus_mod.
    f_equal. lia.
  - reflexivity.
Qed.

(** ** Where rendered files go *)

Lemma split_app (d t : string) :
  filepath.split (d +:+ String Separator t) = filepath.split d ++ filepath.split t.
Proof.
  induction d as [|c d IH].
  - change (EmptyString +:+ String Separator t) with (String Separator t).
    cbn [filepath.split]. by rewrite decide_True.
  - rewrite append_String. cbn [filepath.split]. rewrite IH.
    case_decide; [done|]. pose proof (split_nonempty d) as Hne.
    by destruct (filepath.split d).
Qed.

Lemma Base_of_element (d e : string) :
  filepath.isElement e = true → e ≠ EmptyString →
  filepath.Base (d +:+ String Separator e) = e
  ∧ filepath.Base e = e.
Proof.
  intros He Hne.
  assert (filepath.nonEmpty e = true) as Hnon.
  { unfold filepath.nonEmpty. apply negb_true_iff. by apply String.eqb_neq. }
  assert (String.eqb e EmptyString = false) as Heqb by by apply String.eqb_neq.
  unfold filepath.Base. split.
  - replace (String.eqb (d +:+ String Separator e) EmptyString) with false
      by by destruct d.
    rewrite split_app, (split_element e), filter_app by done.
    rewrite (filter_cons_True _ e) by done. by rewrite filter_nil, last_snoc.
  - rewrite Heqb, split_element by done. by rewrite filter_cons_True.
Qed.

Lemma substring_append (s t : string) :
  String.substring 0 (String.length s) (s +:+ t) = s.
Proof.
  induction s as [|c s IH]; [by destruct t|].
  rewrite append_String. cbn [String.length String.substring]. by rewrite IH.
Qed.

Lemma TrimSuffix_append (s suffix : string) :
  strings.TrimSuffix (s +:+ suffix) suffix = s.
Proof.
  unfold strings.TrimSuffix, strings.HasSuffix. rewrite length_append.
  replace (String.length s + String.length suffix - String.length suffix)%nat
    with (String.length s) by lia.
  rewrite bool_decide_eq_true_2 by lia.
  rewrite skip_append, String.eqb_refl. apply substring_append.
Qed.

(** X5: the three forms of an output path.  Let name be the base name
    of the source path less a trailing ".template".  When name is "..",
    as for the source "a/..", the rendering goes to ".", outside the
    manifest directory.  When name is empty, "." or "/", it goes to the
    manifest directory itself.  In every other case name is a single path
    element and the rendering goes to that name directly under
    manifests/.  No other path is produced. *)
Theorem manifestPath_forms (source : string) :
  let name := strings.TrimSuffix (filepath.Base source) ".template" in
  ((name ∈ [EmptyString; "."; String Separator EmptyString]
    ∧ manifestPath source = manifestDir)
   ∨ (name = ".." ∧ manifestPath source = ".")
   ∨ (filepath.isElement name = true
      ∧ (name ∉ [EmptyString; "."; ".."])
      ∧ manifestPath source = manifestDir +:+ String Separator name)).
Proof.
  intros name. unfold manifestPath. fold name.
  destruct (decide (name = EmptyString)) as [->|Hempty];
    [left; split; [rewrite !elem_of_cons; tauto|done]|].
  destruct (decide (name = ".")) as [->|Hdot];
    [left; split; [rewrite !elem_of_cons; tauto|done]|].
  destruct (decide (name = String Separator EmptyString)) as [->|Hsep];
    [left; split; [rewrite !elem_of_cons; tauto|done]|].
  destruct (decide (name = "..")) as [->|Hdotdot]; [by right; left|].
  right. right.
  assert (filepath.isElement name = true) as Helement.
  { destruct (Base_element source) as [Hbase|Hbase].
    - subst name. by rewrite Hbase in Hsep.
    - by apply TrimSuffix_element. }
  split; [done|]. split; [|by apply Join_manifestDir].
  rewrite !not_elem_of_cons. repeat split; (done || apply not_elem_of_nil).
Qed.

(** X6: a template dir/name.template is rendered to manifests/name.  For
    an ordinary file name (no separator, not empty, not "." or ".."),
    with or without a directory in front, the ".template" suffix is
    dropped and the directory is replaced; a name without the suffix is
    kept as it is. *)
Theorem manifestPath_of_template (dir name : string) :
  filepath.isElement name = true →
  name ≠ EmptyString → name ≠ "." → name ≠ ".." →
  manifestPath (dir +:+ String Separator (name +:+ ".template"))
  = manifestDir +:+ String Separator name
  ∧ manifestPath (name +:+ ".template") = manifestDir +:+ String Separator name
  ∧ (strings.HasSuffix name ".template" = false →
     manifestPath (dir +:+ String Separator name)
     = manifestDir +:+ String Separator name).
Proof.
  intros Helement Hempty Hdot Hdotdot.
  assert (filepath.isElement (name +:+ ".template") = true) as Hfull.
  { clear -Helement. induction name as [|c name IH]; [done|].
    rewrite append_String. cbn [filepath.isElement] in *.
    apply andb_true_iff in Helement as [-> Hrest]. by rewrite IH. }
  assert (name +:+ ".template" ≠ EmptyString) as Hfullne by by destruct name.
  destruct (Base_of_element dir (name +:+ ".template") Hfull Hfullne) as [Hb1 Hb2].
  destruct (Base_of_element dir name Helement Hempty) as [Hb3 _].
  unfold manifestPath. rewrite Hb1, Hb2, Hb3, TrimSuffix_append.
  split; [by apply Join_manifestDir|]. split; [by apply Join_manifestDir|].
  intros Hsuffix. unfold strings.TrimSuffix. rewrite Hsuffix.
  by apply Join_manifestDir.
Qed.

(** ** The endpoint hostnames *)

Lemma hostname_inj (i j : nat) :
  "etcd-" +:+ fmt.Sprintf_d (Z.of_nat i) = "etcd-" +:+ fmt.Sprintf_d (Z.of_nat j) →
  i = j.
Proof.
  intros Heq%(inj (String.app "etcd-")). unfold fmt.Sprintf_d in Heq.
  apply (inj pretty) in Heq. lia.
Qed.

(** X7: the endpoint hostnames are pairwise distinct.  Whenever the
    slice of lines 164-167 is built (the replica count is not negative),
    no hostname occurs twice in it, and a count of 0 gives the empty
    slice. *)
Theorem etcd_endpoint_hostnames_distinct (replicas : Z) (hostnames : list string) :
  makeEtcdEndpointHostnames replicas = Returns hostnames →
  0 ≤ replicas
  ∧ NoDup hostnames
  ∧ (replicas = 0 → hostnames = []).
Proof.
  intros Hmake.
  assert (0 ≤ replicas) as Hn.
  { unfold makeEtcdEndpointHostnames in Hmake. by case_decide; [|lia]. }
  destruct (makeEtcdEndpointHostnames_spec replicas Hn)
    as (hostnames' & Hmake' & Hlen & Hnth).
  rewrite Hmake in Hmake'. injection Hmake' as <-.
  split; [done|]. split.
  - apply NoDup_alt. intros i j name Hi Hj.
    pose proof (lookup_lt_Some _ _ _ Hi) as Hilt.
    pose proof (lookup_lt_Some _ _ _ Hj) as Hjlt.
    rewrite Hnth in Hi by lia. rewrite Hnth in Hj by lia.
    apply hostname_inj. congruence.
  - intros ->. by destruct hostnames.
Qed.

Section FurtherProperties.
Context `{Lib : Library}.

(** ** The loops of generateBootKubeManifests *)

Lemma renderFiles_app (templateData : bootkubeTemplateData)
    (l1 l2 files : list File) :
  renderFiles templateData (l1 ++ l2) files
  = renderFiles templateData l1 files ≫= renderFiles templateData l2.
Proof.
  revert files. induction l1 as [|f rest IH]; intros files; [done|].
  cbn [app renderFiles].
  destruct (applyTemplateData (Data f) templateData); cbn [mbind outcome_bind];
    [apply IH|done].
Qed.

(** The two nested loops are one loop over the files of all assets. *)
Lemma renderAssets_flat (dependencies : Parents) (templateData : bootkubeTemplateData)
    (assets : list BootkubeAsset) (files : list File) :
  renderAssets dependencies templateData assets files
  = renderFiles templateData (mjoin (bootkube_Files dependencies <$> assets)) files.
Proof.
  revert files. induction assets as [|a rest IH]; intros files; [done|].
  cbn [renderAssets]. rewrite fmap_cons. cbn [mjoin list_join].
  rewrite renderFiles_app.
  destruct (renderFiles templateData (bootkube_Files dependencies a) files);
    cbn [mbind outcome_bind]; [apply IH|done].
Qed.

Lemma renderFiles_returns (templateData : bootkubeTemplateData)
    (sources files : list File) :
  (∀ source, source ∈ sources →
     ∃ data, applyTemplateData (Data source) templateData = Returns data) →
  ∃ out, renderFiles templateData sources files = Returns out.
Proof.
  revert files. induction sources as [|f rest IH]; intros files Hall;
    cbn [renderFiles]; [by eexists|].
  destruct (Hall f) as [data ->]; [left|]. cbn [mbind outcome_bind].
  apply IH. intros source Hsource. apply Hall. by right.
Qed.

Lemma bootkubeData_returns (dependencies : Parents) :
  (∃ templateData, bootkubeData dependencies = Returns templateData)
  ↔ ∃ config pool n,
      installConfig_Config dependencies = Some config
      ∧ ControlPlane config = Some pool
      ∧ Replicas pool = Some n
      ∧ 0 ≤ n.
Proof.
  unfold bootkubeData, controlPlaneReplicas, makeEtcdEndpointHostnames. split.
  - intros [templateData Hdata].
    destruct (installConfig_Config dependencies) as [config|] eqn:Hconfig; [|done].
    destruct (ControlPlane config) as [pool|] eqn:Hpool; [|done].
    destruct (Replicas pool) as [n|] eqn:Hreplicas; [|done].
    cbn [mbind outcome_bind] in Hdata. case_decide as Hn; [done|].
    exists config, pool, n. do 3 (split; [done|]). lia.
  - intros (config & pool & n & Hconfig & Hpool & Hreplicas & Hn).
    rewrite Hconfig, Hpool, Hreplicas. cbn [mbind outcome_bind].
    rewrite decide_False by lia. cbn [mbind outcome_bind]. by eexists.
Qed.

(** X8: when generateBootKubeManifests returns.  It returns a file list
    exactly when the configuration, its control plane and the replica
    count are not nil, the count is not negative, and every file of every
    templated asset parses and executes against the schema; in every
    other case it panics. *)
Theorem generateBootKubeManifests_returns_iff (dependencies : Parents) :
  ((∃ files, generateBootKubeManifests dependencies = Returns files)
   ↔ (∃ config pool n,
        installConfig_Config dependencies = Some config
        ∧ ControlPlane config = Some pool
        ∧ Replicas pool = Some n
        ∧ 0 ≤ n)
     ∧ ∀ templateData, bootkubeData dependencies = Returns templateData →
         ∀ a source, source ∈ bootkube_Files dependencies a →
           ∃ data, applyTemplateData (Data source) templateData = Returns data)
  ∧ ((∃ files, generateBootKubeManifests dependencies = Returns files)
     ∨ ∃ reason, generateBootKubeManifests dependencies = Panics reason).
Proof.
  split; [|destruct (generateBootKubeManifests dependencies); by eauto].
  split.
  - intros [files Hfiles].
    destruct (generateBootKubeManifests_spec dependencies files Hfiles)
      as (templateData & Hdata & Hall).
    split; [apply bootkubeData_returns; by eexists|].
    intros templateData' Hdata' a source Hsource.
    rewrite Hdata in Hdata'. injection Hdata' as <-.
    assert (source ∈ mjoin (bootkube_Files dependencies <$> templatedAssets)) as Hin.
    { apply list_elem_of_join. exists (bootkube_Files dependencies a).
      split; [done|]. apply list_elem_of_fmap_2, all_assets_templated. }
    apply list_elem_of_lookup in Hin as [i Hi].
    destruct (Forall2_lookup_l _ _ _ _ _ Hall Hi) as (out & _ & _ & Hout).
    by eexists.
  - intros [[templateData Hdata]%bootkubeData_returns Hall].
    unfold generateBootKubeManifests. rewrite Hdata. cbn [mbind outcome_bind].
    rewrite renderAssets_flat. apply renderFiles_returns.
    intros source (files & Hsource & (a & -> & _)%list_elem_of_fmap)%list_elem_of_join.
    by eapply Hall.
Qed.

(** X9: the first template that fails decides the panic.  Going through
    the files of the templated assets in the order of lines 194-211, if
    the files before one render and that one does not parse or execute,
    generateBootKubeManifests panics with the reason of that file, whatever
    comes after it. *)
Theorem generateBootKubeManifests_first_failure
    (dependencies : Parents) (templateData : bootkubeTemplateData)
    (before after : list File) (source : File) (reason : string) :
  bootkubeData dependencies = Returns templateData →
  mjoin (bootkube_Files dependencies <$> templatedAssets)
  = before ++ source :: after →
  (∀ earlier, earlier ∈ before →
     ∃ data, applyTemplateData (Data earlier) templateData = Returns data) →
  applyTemplateData (Data source) templateData = Panics reason →
  generateBootKubeManifests dependencies = Panics reason.
Proof.
  intros Hdata Hsplit Hbefore Hfail.
  unfold generateBootKubeManifests. rewrite Hdata. cbn [mbind outcome_bind].
  rewrite renderAssets_flat, Hsplit, renderFiles_app.
  destruct (renderFiles_returns templateData before [] Hbefore) as [out ->].
  cbn [mbind outcome_bind renderFiles]. by rewrite Hfail.
Qed.

(** ** What Generate puts in the file list *)

(** X10: nothing is lost or added when the files are merged.  After a
    successful Generate the file list is a rearrangement of the status
    record file, the rendered files and the files of the ingress, dns,
    network and infrastructure assets as they are; it has one file for
    the status record, one for each file of a templated asset and one for
    each file of these four assets. *)
Theorem Generate_merges_every_file (dependencies : Parents) (w w' : World) :
  Generate dependencies w = (Returns None, w') →
  ∃ kubeSysConfigData rendered,
    generateBootKubeManifests dependencies = Returns rendered
    ∧ FileList (manifests w')
      ≡ₚ {| Filename := kubeSysConfigPath; Data := kubeSysConfigData |}
         :: rendered ++ ingress_Files dependencies ++ dns_Files dependencies
            ++ network_Files dependencies ++ infra_Files dependencies
    ∧ length (FileList (manifests w'))
      = (1 + length (mjoin (bootkube_Files dependencies <$> templatedAssets))
         + length (ingress_Files dependencies) + length (dns_Files dependencies)
         + length (network_Files dependencies)
         + length (infra_Files dependencies))%nat.
Proof.
  intros (config & redacted & data & files & w0 & Hconfig & Hred & Hdata & Hfiles & ->)
    %Generate_success.
  exists data, files. split; [done|]. cbn [withManifests manifests FileList].
  destruct (generateBootKubeManifests_spec dependencies files Hfiles)
    as (templateData & _ & Hall).
  apply Forall2_length in Hall.
  assert (SortFiles (collected dependencies data files)
          ≡ₚ {| Filename := kubeSysConfigPath; Data := data |}
             :: files ++ ingress_Files dependencies ++ dns_Files dependencies
                ++ network_Files dependencies ++ infra_Files dependencies) as Hperm.
  { rewrite SortFiles_Permutation. unfold collected.
    by rewrite <- !app_assoc. }
  split; [done|]. rewrite Hperm. cbn [length]. rewrite !length_app. lia.
Qed.

(** ** What the redactor keeps *)

(** X11: the redactor clears the three secret fields and nothing else.
    What is serialized has an empty pull secret and, in a vSphere record,
    an empty username and password; the control plane, the remaining
    fields of the configuration, of the platform and of the vSphere record
    are those of the caller's configuration, and a nil vSphere record
    stays nil.  Redacting the serialized configuration again changes
    nothing. *)
Theorem redactedInstallConfig_clears_only_secrets
    (config : InstallConfig loc) (w : World) (v : InstallConfig VSpherePlatform) :
  follow (heap w) config = Some v →
  ∃ v',
    (redactedInstallConfig config w).1 = Returns (yaml_Marshal_InstallConfig v')
    ∧ PullSecret v' = EmptyString
    ∧ ControlPlane v' = ControlPlane v
    ∧ configRest v' = configRest v
    ∧ platformRest (PlatformOf v') = platformRest (PlatformOf v)
    ∧ match VSphere (PlatformOf v), VSphere (PlatformOf v') with
      | None, None => True
      | Some p, Some p' =>
          Username p' = EmptyString ∧ Password p' = EmptyString
          ∧ vsphereRest p' = vsphereRest p
      | _, _ => False
      end
    ∧ set_VSphere (cleared <$> VSphere (PlatformOf v'))
                  (set_PullSecret EmptyString v') = v'.
Proof.
  intros Hview. rewrite redactedInstallConfig_result, Hview.
  eexists. split; [done|].
  destruct v as [ps cp [[p|] pr] cr]; cbn; by repeat split.
Qed.

(** ** The store across Generate *)

Lemma redactedInstallConfig_heap
    (config : InstallConfig loc) (w w' : World) (r : outcome (result string)) :
  redactedInstallConfig config w = (r, w') →
  heap w ⊆ heap w'
  ∧ dom (heap w') ⊆ dom (heap w) ∪ {[ fresh (dom (heap w)) ]}.
Proof.
  intros Hrun. pose proof (redactedInstallConfig_cases config w) as Hcases.
  destruct (VSphere (PlatformOf config)) as [ptr|].
  - destruct (heap w !! ptr) as [p|].
    + rewrite Hcases in Hrun. injection Hrun as <- <-. cbn [heap].
      split; [apply insert_subseteq, fresh_cell|].
      rewrite dom_insert_L. apply union_subseteq.
      split; [apply union_subseteq_r|apply union_subseteq_l].
    + rewrite Hcases in Hrun. injection Hrun as <- <-.
      split; [done|apply union_subseteq_l].
  - rewrite Hcases in Hrun. injection Hrun as <- <-.
    split; [done|apply union_subseteq_l].
Qed.

(** X12: Generate does not write to the configuration.  However Generate
    ends (nil, an error or a panic), every record of the store is as it
    was before the call, so the install configuration of the dependencies
    reads as before for every other consumer; at most one record is
    added, the redacted copy. *)
Theorem Generate_keeps_the_store
    (dependencies : Parents) (w w' : World) (r : outcome (option error)) :
  Generate dependencies w = (r, w') →
  heap w ⊆ heap w'
  ∧ dom (heap w') ⊆ dom (heap w) ∪ {[ fresh (dom (heap w)) ]}
  ∧ ∀ config, installConfig_Config dependencies = Some config →
      follow (heap w') config = follow (heap w) config.
Proof.
  intros Hrun. pose proof (Generate_cases dependencies w) as Hcases.
  destruct (installConfig_Config dependencies) as [config|].
  2:{ rewrite Hcases in Hrun. injection Hrun as <- <-.
      split; [done|]. split; [apply union_subseteq_l|]. by intros ? [=]. }
  destruct (redactedInstallConfig config w) as [o w1] eqn:Hred.
  destruct (redactedInstallConfig_heap _ _ _ _ Hred) as [Hsub Hdom].
  destruct (redactedInstallConfig_frame _ _ _ _ Hred) as [_ Hview].
  assert (heap w' = heap w1) as ->.
  { destruct o as [[redacted|err]|reason]; [| |congruence].
    - cbn zeta in Hcases.
      destruct (yaml_Marshal_configurationObject _) as [data|err].
      + destruct (generateBootKubeManifests dependencies);
          rewrite Hcases in Hrun; by injection Hrun as <- <-.
      + rewrite Hcases in Hrun. by injection Hrun as <- <-.
    - rewrite Hcases in Hrun. by injection Hrun as <- <-. }
  split; [done|]. split; [done|]. by intros ? [= <-].
Qed.

(** X17: what a Generate that does not succeed leaves in the asset.
    Either the asset is as before (nil configuration, failed redaction);
    or the serialization of the status record failed, and the asset
    already holds the new status record, with its old file list; or
    generateBootKubeManifests panicked, and the asset holds the new status
    record and a file list of the status record file alone. *)
Theorem Generate_failure_leaves
    (dependencies : Parents) (w w' : World) (r : outcome (option error)) :
  Generate dependencies w = (r, w') →
  r ≠ Returns None →
  manifests w' = manifests w
  ∨ (∃ redactedConfig cause,
       r = Returns (Some (errors_Wrap cause
             "failed to create kube-system/cluster-config-v1 configmap"))
       ∧ yaml_Marshal_configurationObject (statusRecord redactedConfig) = Err cause
       ∧ manifests w' = {| KubeSysConfig := Some (statusRecord redactedConfig);
                           FileList := FileList (manifests w) |})
  ∨ (∃ redactedConfig kubeSysConfigData reason,
       r = Panics reason
       ∧ generateBootKubeManifests dependencies = Panics reason
       ∧ manifests w' = {| KubeSysConfig := Some (statusRecord redactedConfig);
                           FileList := [ {| Filename := kubeSysConfigPath;
                                            Data := kubeSysConfigData |} ] |}).
Proof.
  intros Hrun Hfail. pose proof (Generate_cases dependencies w) as Hcases.
  destruct (installConfig_Config dependencies) as [config|].
  2:{ rewrite Hcases in Hrun. injection Hrun as <- <-. by left. }
  destruct (redactedInstallConfig config w) as [o w1] eqn:Hred.
  destruct (redactedInstallConfig_frame _ _ _ _ Hred) as [Hm _].
  destruct o as [[redacted|err]|reason].
  - cbn zeta in Hcases.
    destruct (yaml_Marshal_configurationObject _) as [data|err] eqn:Hdata.
    + destruct (generateBootKubeManifests dependencies) as [files|reason] eqn:Hfiles;
        rewrite Hcases in Hrun; injection Hrun as <- <-; [done|].
      right. right. by exists redacted, data, reason.
    + rewrite Hcases in Hrun. injection Hrun as <- <-.
      right. left. exists redacted, err. cbn [withManifests manifests].
      by rewrite Hm.
  - rewrite Hcases in Hrun. injection Hrun as <- <-. by left.
  - rewrite Hcases in Hrun. injection Hrun as <- <-. by left.
Qed.

(** ** Load when it finds the asset *)

(** X13: what a successful Load leaves.  When Load returns found = true
    there is no error; the fetched list holds a file at the status record
    path; the asset holds the decoded status record and the fetched files,
    all of them, sorted by path; nothing else of the state changes and
    what the asset held before is gone. *)
Theorem Load_found (f : FileFetcher) (w w' : World) (e : option error) :
  Load f w = (Returns (true, e), w') →
  e = None
  ∧ heap w' = heap w
  ∧ ∃ fileList kubeSysConfig,
      @FetchByPattern f manifestPattern = Ok fileList
      ∧ loadLoop fileList emptyConfigurationObject false = Ok (kubeSysConfig, true)
      ∧ manifests w' = {| KubeSysConfig := Some kubeSysConfig;
                          FileList := SortFiles fileList |}
      ∧ Files (manifests w') ≡ₚ fileList
      ∧ StronglySorted pathLe (Files (manifests w'))
      ∧ ∃ file, file ∈ fileList ∧ Filename file = kubeSysConfigPath.
Proof.
  intros Hrun. pose proof (Load_cases f w) as Hcases.
  destruct (@FetchByPattern f manifestPattern) as [[|file rest]|err];
    [congruence| |congruence].
  destruct (loadLoop _ _ _) as [[o [|]]|err] eqn:Hloop; [|congruence..].
  rewrite Hcases in Hrun. injection Hrun as <- <-.
  split; [done|]. split; [done|]. exists (file :: rest), o.
  split; [done|]. split; [done|]. split; [done|]. unfold Files.
  cbn [withManifests manifests FileList].
  split; [apply (SortFiles_Permutation (file :: rest))|].
  split; [apply (SortFiles_sorted (file :: rest))|].
  apply loadLoop_found in Hloop. destruct Hloop as [Hfound _].
  by destruct (Hfound eq_refl) as [[=]|?].
Qed.

(** X14: when Load finds the asset.  If the fetch succeeds with files of
    unique paths, one of them at the status record path, and that file
    decodes into the empty object, then Load returns (true, nil) and the
    asset holds the decoded record and the sorted files, whatever it held
    before. *)
Theorem Load_finds_decodable_status_record
    (f : FileFetcher) (w : World) (fileList : list File) (file : File)
    (kubeSysConfig : configurationObject) :
  @FetchByPattern f manifestPattern = Ok fileList →
  NoDup (Filename <$> fileList) →
  file ∈ fileList →
  Filename file = kubeSysConfigPath →
  yaml_Unmarshal (Data file) emptyConfigurationObject = Ok kubeSysConfig →
  Load f w
  = (Returns (true, None),
     withManifests w {| KubeSysConfig := Some kubeSysConfig;
                        FileList := SortFiles fileList |}).
Proof.
  intros Hfetch Hnodup Hin Hpath Hdecode.
  pose proof (Load_cases f w) as Hcases. rewrite Hfetch in Hcases.
  pose proof (loadLoop_unique fileList file emptyConfigurationObject false
                Hnodup Hin Hpath) as Hloop.
  rewrite Hdecode in Hloop.
  destruct fileList as [|file0 rest]; [by apply elem_of_nil in Hin|].
  by rewrite Hloop in Hcases.
Qed.

Lemma loadLoop_filter (fileList : list File) (kubeSysConfig : configurationObject)
    (found : bool) :
  loadLoop (filter (λ file, Filename file = kubeSysConfigPath) fileList)
           kubeSysConfig found
  = loadLoop fileList kubeSysConfig found.
Proof.
  revert kubeSysConfig found.
  induction fileList as [|file rest IH]; intros kubeSysConfig found; [done|].
  destruct (decide (Filename file = kubeSysConfigPath)) as [Hpath|Hpath].
  - rewrite filter_cons_True by done. cbn [loadLoop].
    rewrite !decide_True by done.
    destruct (yaml_Unmarshal (Data file) kubeSysConfig); [apply IH|done].
  - rewrite filter_cons_False by done. cbn [loadLoop].
    rewrite decide_False by done. apply IH.
Qed.

(** X15: Load decodes the status record and no other file.  For a fetch
    that succeeds with at least one file, what Load returns (found or not,
    error or not) is decided by the fetched files at the status record
    path alone: files at other paths are never decoded, so a file that
    would not decode does no harm elsewhere in manifests/. *)
Theorem Load_decodes_only_the_status_record
    (f : FileFetcher) (w : World) (fileList : list File) :
  @FetchByPattern f manifestPattern = Ok fileList →
  fileList ≠ [] →
  (Load f w).1
  = Returns
      match loadLoop (filter (λ file, Filename file = kubeSysConfigPath) fileList)
                     emptyConfigurationObject false with
      | Err err => (false, Some err)
      | Ok (_, found) => (found, None)
      end.
Proof.
  intros Hfetch Hne. pose proof (Load_cases f w) as Hcases.
  rewrite Hfetch in Hcases. rewrite loadLoop_filter.
  destruct fileList as [|file rest]; [done|].
  destruct (loadLoop _ _ _) as [[o [|]]|err]; by rewrite Hcases.
Qed.

End FurtherProperties.

(** * Concrete runs

    The properties above at the sample library and dependencies. *)


Lemma indent_replaces_newlines_witness :
  0 ≤ 2 ∧ indent 2 ("a" +:+ String LF "b") = Returns ("a" +:+ String LF "  b").
Proof.
  split; [lia|].
  apply (indent_replaces_newlines 2 ("a" +:+ String LF "b")). lia.
Defined.

Lemma redactedInstallConfig_leaves_caller_config_witness :
  let run := @redactedInstallConfig _ Sample.library
               (Sample.config "test.example.com") Sample.world in
  run.1 = Returns (Ok "pullSecret:  domain: test.example.com vcenter: vcenter.example.com username:  password: ")
  ∧ heap run.2 !! 1%positive = Some Sample.vsphere.
Proof.
  intros run. split; [by vm_compute|].
  destruct (@redactedInstallConfig_leaves_caller_config _ Sample.library
              (Sample.config "test.example.com") Sample.world run.2 run.1)
    as (_ & _ & _ & Hcell).
  - by vm_compute.
  - apply (Hcell 1%positive Sample.vsphere); by vm_compute.
Defined.

Lemma status_record_independent_of_secrets_witness :
  let run1 := @Generate _ Sample.library Sample.goodParents Sample.world in
  let run2 := @Generate _ Sample.library
                (otherSecretsParents "0th3r" Sample.goodParents)
                (otherSecretsWorld "root" "t00r" Sample.goodParents Sample.world) in
  run1.1 = Returns None ∧ run2.1 = Returns None
  ∧ KubeSysConfig (manifests run1.2) = KubeSysConfig (manifests run2.2).
Proof.
  intros run1 run2. split; [by vm_compute|]. split; [by vm_compute|].
  apply (@status_record_independent_of_secrets _ Sample.library
           Sample.goodParents Sample.world "0th3r" "root" "t00r"
           run1.1 run2.1 run1.2 run2.2); by vm_compute.
Defined.



Lemma template_failure_unwinds_Generate_witness :
  ∃ reason w',
    @Generate _ Sample.library
      (Sample.parents "test.example.com" "{{.Missing}}") Sample.world
    = (Panics reason, w').
Proof.
  destruct (@bootkubeData _ Sample.library
              (Sample.parents "test.example.com" "{{.Missing}}"))
    as [templateData|] eqn:Hdata; [|by vm_compute in Hdata].
  destruct (@template_failure_unwinds_Generate _ Sample.library
              (Sample.parents "test.example.com" "{{.Missing}}") Sample.world
              templateData CVOOverrides
              {| Filename := "bootkube/manifests/cvo-overrides.yaml.template";
                 Data := "{{.Missing}}" |}
              "template: can't evaluate field Missing")
    as (_ & _ & _ & Hpanic).
  - done.
  - by left.
  - right. by exists "{{.Missing}}".
  - edestruct Hpanic as [reason' Hrun]; [reflexivity|by vm_compute|by vm_compute|].
    by eauto.
Defined.

(** C3 as the spec has it fails: the template body ["{{"] does not parse,
    and [Generate] returns no error for it; it panics. *)
Lemma template_failure_is_not_returned :
  let dependencies := Sample.parents "test.example.com" "{{" in
  (∃ source, source ∈ bootkube_Files dependencies CVOOverrides
             ∧ @template_Parse _ Sample.library customTmplFuncs (Data source)
               = Err "template: unclosed action")
  ∧ (∃ w', @Generate _ Sample.library dependencies Sample.world
           = (Panics "template: unclosed action", w'))
  ∧ ¬ ∃ e w', @Generate _ Sample.library dependencies Sample.world
              = (Returns (Some e), w').
Proof.
  intros dependencies. split; [|split].
  - eexists. split; [by left|done].
  - eexists. by vm_compute.
  - intros (e & w' & Hrun). by vm_compute in Hrun.
Qed.

Lemma Generate_deterministic_sorted_witness :
  let run := @Generate _ Sample.library Sample.goodParents Sample.world in
  run.1 = Returns None
  ∧ StronglySorted pathLe (FileList (manifests run.2))
  ∧ ∃ w2, @Generate _ Sample.library Sample.goodParents run.2 = (Returns None, w2)
          ∧ FileList (manifests w2) = FileList (manifests run.2).
Proof.
  intros run. split; [by vm_compute|].
  destruct (@Generate_deterministic_sorted _ Sample.library
              Sample.goodParents Sample.world run.2)
    as (Hagain & Hsorted & _); [by vm_compute|].
  by split.
Defined.

Lemma Generate_error_keeps_FileList_witness :
  let run := @Generate _ Sample.library
               (Sample.parents EmptyString "clusterID: {{.CVOClusterID}}")
               Sample.world in
  run.1 = Returns (Some "failed to redact install-config: yaml: no cluster domain")
  ∧ Files (manifests run.2) = [].
Proof.
  intros run. split; [by vm_compute|].
  apply (@Generate_error_keeps_FileList _ Sample.library
           (Sample.parents EmptyString "clusterID: {{.CVOClusterID}}")
           Sample.world run.2
           "failed to redact install-config: yaml: no cluster domain");
    by vm_compute.
Defined.

Lemma etcd_endpoint_hostnames_by_replicas_witness :
  let run := @Generate _ Sample.library Sample.goodParents Sample.world in
  0 ≤ 3
  ∧ run.1 = Returns None
  ∧ ∃ templateData out,
      EtcdEndpointHostnames templateData = ["etcd-0"; "etcd-1"; "etcd-2"]
      ∧ Sample.execute "clusterID: {{.CVOClusterID}}" templateData = Ok (Data out)
      ∧ out ∈ FileList (manifests run.2).
Proof.
  intros run. split; [lia|]. split; [by vm_compute|].
  destruct (@etcd_endpoint_hostnames_by_replicas _ Sample.library
              Sample.goodParents (Sample.config "test.example.com")
              Sample.pool 3)
    as (templateData & _ & _ & _ & Hthree & _ & Hbound); [done|done|done|lia|].
  destruct (Hbound Sample.world run.2) with
    (a := CVOOverrides)
    (source := {| Filename := "bootkube/manifests/cvo-overrides.yaml.template";
                  Data := "clusterID: {{.CVOClusterID}}" |})
    as (template & out & Hparse & Hexec & _ & Hin); [by vm_compute|by left|].
  injection Hparse as <-.
  exists templateData, out. split; [by apply Hthree|]. by split.
Defined.

Lemma templated_files_placed_under_manifestDir_witness :
  let run := @Generate _ Sample.library Sample.goodParents Sample.world in
  run.1 = Returns None
  ∧ {| Filename := "manifests/cvo-overrides.yaml"; Data := "clusterID: c1u5-7e4" |}
    ∈ FileList (manifests run.2).
Proof.
  intros run. split; [by vm_compute|].
  destruct (@templated_files_placed_under_manifestDir _ Sample.library
              Sample.goodParents Sample.world run.2)
    as (templateData & rendered & Hdata & _ & _ & Hplaced); [by vm_compute|].
  destruct (Hplaced CVOOverrides
              {| Filename := "bootkube/manifests/cvo-overrides.yaml.template";
                 Data := "clusterID: {{.CVOClusterID}}" |})
    as (out & _ & Hin & Hcontent & Hpath & _); [by left|].
  assert (templateData.(CVOClusterID) = "c1u5-7e4") as Hid.
  { vm_compute in Hdata. by injection Hdata as <-. }
  replace {| Filename := "manifests/cvo-overrides.yaml";
             Data := "clusterID: c1u5-7e4" |} with out; [done|].
  destruct out as [name content]. cbn [Filename Data] in *.
  rewrite Hpath. f_equal.
  unfold applyTemplateData in Hcontent. cbn in Hcontent.
  rewrite Hid in Hcontent. by injection Hcontent as <-.
Defined.

Lemma indent_indent_witness :
  0 ≤ 2 ∧ 0 ≤ 1
  ∧ indent 1 ("a" +:+ String LF "b") ≫= indent 2 = Returns ("a" +:+ String LF "   b").
Proof.
  split; [lia|]. split; [lia|].
  rewrite (indent_indent 2 1 ("a" +:+ String LF "b")) by lia. reflexivity.
Defined.

Lemma indent_append_length_witness :
  0 ≤ 2
  ∧ ∃ a' b',
      indent 2 ("x" +:+ String LF EmptyString) = Returns a'
      ∧ indent 2 "y" = Returns b'
      ∧ indent 2 (("x" +:+ String LF EmptyString) +:+ "y") = Returns (a' +:+ b')
      ∧ String.length a' = 4%nat.
Proof.
  split; [lia|].
  destruct (indent_append_length 2 ("x" +:+ String LF EmptyString) "y")
    as (a' & b' & Ha & Hb & Hab & Hlen); [lia|].
  exists a', b'. by rewrite Hlen.
Defined.

Lemma manifestPath_of_template_witness :
  manifestPath "bootkube/manifests/pull.json.template" = "manifests/pull.json".
Proof.
  apply (manifestPath_of_template "bootkube/manifests" "pull.json"); done.
Defined.

Lemma etcd_endpoint_hostnames_distinct_witness :
  NoDup ["etcd-0"; "etcd-1"; "etcd-2"].
Proof.
  apply (etcd_endpoint_hostnames_distinct 3 ["etcd-0"; "etcd-1"; "etcd-2"]).
  reflexivity.
Defined.

Lemma generateBootKubeManifests_first_failure_witness :
  @generateBootKubeManifests _ Sample.library (Sample.parents "test.example.com" "{{")
  = Panics "template: unclosed action".
Proof.
  destruct (@bootkubeData _ Sample.library (Sample.parents "test.example.com" "{{"))
    as [templateData|] eqn:Hdata; [|by vm_compute in Hdata].
  apply (@generateBootKubeManifests_first_failure _ Sample.library
           (Sample.parents "test.example.com" "{{") templateData [] []
           {| Filename := "bootkube/manifests/cvo-overrides.yaml.template";
              Data := "{{" |}).
  - done.
  - reflexivity.
  - by intros earlier ?%elem_of_nil.
  - reflexivity.
Defined.

Lemma Generate_merges_every_file_witness :
  let run := @Generate _ Sample.library Sample.goodParents Sample.world in
  run.1 = Returns None ∧ length (FileList (manifests run.2)) = 6%nat.
Proof.
  intros run. split; [by vm_compute|].
  destruct (@Generate_merges_every_file _ Sample.library
              Sample.goodParents Sample.world run.2)
    as (data & rendered & _ & _ & Hlen); [by vm_compute|].
  by rewrite Hlen.
Defined.

Lemma redactedInstallConfig_clears_only_secrets_witness :
  ∃ v',
    (@redactedInstallConfig _ Sample.library
       (Sample.config "test.example.com") Sample.world).1
    = Returns (Sample.encodeConfig v')
    ∧ PullSecret v' = EmptyString
    ∧ configRest v' = "test.example.com".
Proof.
  destruct (@redactedInstallConfig_clears_only_secrets _ Sample.library
              (Sample.config "test.example.com") Sample.world
              (set_VSphere (Some Sample.vsphere) (Sample.config "test.example.com")))
    as (v' & Hrun & Hsecret & _ & Hrest & _); [by vm_compute|].
  exists v'. by rewrite Hrest.
Defined.

Lemma Generate_keeps_the_store_witness :
  let run := @Generate _ Sample.library
               (Sample.parents "test.example.com" "{{") Sample.world in
  run.1 = Panics "template: unclosed action"
  ∧ heap Sample.world ⊆ heap run.2.
Proof.
  intros run. split; [by vm_compute|].
  apply (@Generate_keeps_the_store _ Sample.library
           (Sample.parents "test.example.com" "{{") Sample.world run.2 run.1).
  by vm_compute.
Defined.

Lemma Load_found_witness :
  let persisted := [ {| Filename := "manifests/pull.json"; Data := "{}" |};
                     {| Filename := "manifests/cluster-config.yaml";
                        Data := "install-config: pullSecret: " |} ] in
  let run := @Load _ Sample.library (Sample.fetcher persisted) Sample.world in
  run.1 = Returns (true, None)
  ∧ heap run.2 = heap Sample.world.
Proof.
  intros persisted run. split; [by vm_compute|].
  apply (@Load_found _ Sample.library (Sample.fetcher persisted) Sample.world
           run.2 None).
  by vm_compute.
Defined.

Lemma Load_finds_decodable_status_record_witness :
  let persisted := [ {| Filename := "manifests/pull.json"; Data := "{}" |};
                     {| Filename := "manifests/cluster-config.yaml";
                        Data := "install-config: pullSecret: " |} ] in
  (@Load _ Sample.library (Sample.fetcher persisted) Sample.world).1
  = Returns (true, None).
Proof.
  intros persisted.
  rewrite (@Load_finds_decodable_status_record _ Sample.library
             (Sample.fetcher persisted) Sample.world persisted
             {| Filename := "manifests/cluster-config.yaml";
                Data := "install-config: pullSecret: " |}
             (Sample.statusRecordOf "pullSecret: ")).
  - done.
  - reflexivity.
  - apply (bool_decide_unpack _). by vm_compute.
  - apply (bool_decide_unpack _). by vm_compute.
  - reflexivity.
  - reflexivity.
Defined.

Lemma Load_decodes_only_the_status_record_witness :
  let persisted := [ {| Filename := "manifests/broken.yaml"; Data := "{{" |} ] in
  (@Load _ Sample.library (Sample.fetcher persisted) Sample.world).1
  = Returns (false, None).
Proof.
  intros persisted.
  rewrite (@Load_decodes_only_the_status_record _ Sample.library
             (Sample.fetcher persisted) Sample.world persisted); done.
Defined.

Lemma Generate_failure_leaves_witness :
  let run := @Generate _ Sample.library
               (Sample.parents "test.example.com" "{{") Sample.world in
  run.1 = Panics "template: unclosed action"
  ∧ length (FileList (manifests run.2)) = 1%nat.
Proof.
  intros run. split; [by vm_compute|].
  destruct (@Generate_failure_leaves _ Sample.library
              (Sample.parents "test.example.com" "{{") Sample.world run.2 run.1)
    as [Hsame|[(redacted & cause & Hr & _)|(redacted & data & reason & _ & _ & ->)]].
  - by vm_compute.
  - by vm_compute.
  - by vm_compute in Hsame.
  - by vm_compute in Hr.
  - done.
Defined.
